(** * dockertesting: running [go test] inside a container

    A shallow embedding of the Go package [dockertesting]: the functional
    options ([NewOptions] and the [With...] constructors), the error values
    ([TimeoutError], [wrapTimeoutError]), the build-context archiver
    ([CreateTarContext]), the container and network sessions, and the
    orchestrator [Run] with its deferred cleanups.

    Go values are modelled as follows.
    - A Go [error] is a value of the inductive type [error]; a possibly nil
      error is an [option error], [None] being [nil].
    - A function of this package returning [(T, error)] returns a pair of
      options, so that [(nil, nil)] is expressible.  A call into a library
      outside the package (the container engine, the operating system)
      returns a sum [T + error].
    - A [[]byte] is an [option (list byte)] where nil matters and a
      [list byte] where it does not; a [string] is a [string].
    - Calls into the container engine thread an abstract world and append to
      a trace of events, and so do the writes to the standard output of the
      process; a panic is an outcome of its own and deferred functions run
      on it. *)

From Stdlib Require Import String Ascii List ZArith Lia Bool.
From Stdlib Require Import Strings.Byte.
Import ListNotations.

Local Open Scope string_scope.
Local Open Scope list_scope.

Notation "a ^^ b" := (String.append a b) (at level 60, right associativity).

(* ================================================================== *)
(** * Errors *)

(** The error values that the package creates or inspects.
    [errorString] is the result of [errors.New] and of [fmt.Errorf] without
    [%w]; [wrapError] the result of [fmt.Errorf] with one [%w], holding the
    formatted message and the wrapped error; [TimeoutError] is the package's
    own type; the last two are [context.DeadlineExceeded] and
    [context.Canceled]. *)
Inductive error : Type :=
| errorString (s : string)
| wrapError (msg : string) (err : error)
| TimeoutError (Operation : string) (Err : error)
| deadlineExceededError
| canceledError.

(** [err.Error()]; for [TimeoutError] it is the method of run.go. *)
Fixpoint Error (e : error) : string :=
  match e with
  | errorString s => s
  | wrapError msg _ => msg
  | TimeoutError op err => "timeout during " ^^ op ^^ ": " ^^ Error err
  | deadlineExceededError => "context deadline exceeded"
  | canceledError => "context canceled"
  end.

(** [errors.Unwrap]. *)
Definition Unwrap (e : error) : option error :=
  match e with
  | wrapError _ err => Some err
  | TimeoutError _ err => Some err
  | _ => None
  end.

(** [fmt.Errorf(prefix + "%w", err)]: the message is the prefix followed by
    the message of the wrapped error. *)
Definition Errorf_w (prefix : string) (err : error) : error :=
  wrapError (prefix ^^ Error err) err.

Fixpoint error_eqb (a b : error) : bool :=
  match a, b with
  | errorString s, errorString t => String.eqb s t
  | wrapError m e, wrapError n f => String.eqb m n && error_eqb e f
  | TimeoutError o e, TimeoutError p f => String.eqb o p && error_eqb e f
  | deadlineExceededError, deadlineExceededError => true
  | canceledError, canceledError => true
  | _, _ => false
  end.

(** [errors.Is(err, target)] for a non-nil [err]: [target] is met along the
    chain of [Unwrap]. *)
Fixpoint errors_Is (err target : error) : bool :=
  error_eqb err target ||
  match err with
  | wrapError _ e => errors_Is e target
  | TimeoutError _ e => errors_Is e target
  | _ => false
  end.

(** [errors.Is] on a possibly nil first argument and a non-nil target. *)
Definition errors_Is_opt (err : option error) (target : error) : bool :=
  match err with
  | None => false
  | Some e => errors_Is e target
  end.

(** [errors.As(err, &timeoutErr)] with [timeoutErr] of type [*TimeoutError]. *)
Fixpoint errors_As_TimeoutError (err : error) : option (string * error) :=
  match err with
  | TimeoutError op e => Some (op, e)
  | wrapError _ e => errors_As_TimeoutError e
  | _ => None
  end.

(* ================================================================== *)
(** * Contexts *)

(** A [time.Duration], in nanoseconds. *)
Definition Duration := Z.
Definition Second : Duration := 1000000000%Z.
Definition Minute : Duration := (60 * Second)%Z.

(** A [context.Context]: the context of the caller, or one derived from a
    parent by [context.WithTimeout]. *)
Inductive context : Type :=
| Background
| WithTimeout (parent : context) (timeout : Duration).

Fixpoint context_eqb (a b : context) : bool :=
  match a, b with
  | Background, Background => true
  | WithTimeout p d, WithTimeout q e => context_eqb p q && Z.eqb d e
  | _, _ => false
  end.

(** run.go, [wrapTimeoutError], with [ctxErr] the value of [ctx.Err()] at the
    time of the call. *)
Definition wrapTimeoutError (ctxErr : option error) (err : option error)
    (operation : string) : option error :=
  match err with
  | None => None
  | Some e =>
      if errors_Is_opt ctxErr deadlineExceededError
      then Some (TimeoutError operation e)
      else Some (Errorf_w ("failed to " ^^ operation ^^ ": ") e)
  end.

(* ================================================================== *)
(** * Options (the functional options of the package) *)

Definition DefaultPattern : string := "./...".
Definition DefaultSockPath : string := "/var/run/docker.sock".
Definition DefaultTimeout : Duration := (10 * Minute)%Z.
Definition DefaultCoverageFile : string := "/tmp/coverage.txt".

Record Options : Type := mkOptions {
  PackagePath : string;
  Pattern : string;
  Args : list string;
  Aliases : list string;
  EnableVarSock : bool;
  SockPath : string;
  Timeout : Duration
}.

(** The type [Option], a function on a pointer to [Options]: the update it
    performs on the draft. *)
Definition Option := Options -> Options.

Definition WithPattern (pattern : string) : Option := fun o =>
  mkOptions (PackagePath o) pattern (Args o) (Aliases o)
            (EnableVarSock o) (SockPath o) (Timeout o).

Definition WithArgs (args : list string) : Option := fun o =>
  mkOptions (PackagePath o) (Pattern o) (Args o ++ args) (Aliases o)
            (EnableVarSock o) (SockPath o) (Timeout o).

Definition WithAliases (aliases : list string) : Option := fun o =>
  mkOptions (PackagePath o) (Pattern o) (Args o) (Aliases o ++ aliases)
            (EnableVarSock o) (SockPath o) (Timeout o).

Definition WithVarSock : Option := fun o =>
  mkOptions (PackagePath o) (Pattern o) (Args o) (Aliases o)
            true (SockPath o) (Timeout o).

Definition WithSockPath (path : string) : Option := fun o =>
  mkOptions (PackagePath o) (Pattern o) (Args o) (Aliases o)
            (EnableVarSock o) path (Timeout o).

Definition WithTimeoutOpt (timeout : Duration) : Option := fun o =>
  mkOptions (PackagePath o) (Pattern o) (Args o) (Aliases o)
            (EnableVarSock o) (SockPath o) timeout.

(** The loop [for _, opt := range opts { opt(o) }]. *)
Definition apply_opts (opts : list Option) (o : Options) : Options :=
  fold_left (fun acc opt => opt acc) opts o.

Definition NewOptions (packagePath : string) (opts : list Option)
  : option Options * option error :=
  if String.eqb packagePath "" then
    (None, Some (errorString "package path is required"))
  else
    let o := mkOptions packagePath DefaultPattern [] []
                       false DefaultSockPath DefaultTimeout in
    (Some (apply_opts opts o), None).

(** The configuration calls a caller can write with this package, as data:
    used to speak about "the calls supplied" in statements.  [denote] gives
    the [Option] each call evaluates to. *)
Inductive OptionCall : Type :=
| CallWithPattern (pattern : string)
| CallWithArgs (args : list string)
| CallWithAliases (aliases : list string)
| CallWithVarSock
| CallWithSockPath (path : string)
| CallWithTimeout (timeout : Duration).

Definition denote (c : OptionCall) : Option :=
  match c with
  | CallWithPattern p => WithPattern p
  | CallWithArgs a => WithArgs a
  | CallWithAliases a => WithAliases a
  | CallWithVarSock => WithVarSock
  | CallWithSockPath p => WithSockPath p
  | CallWithTimeout t => WithTimeoutOpt t
  end.

Definition is_timeout_call (c : OptionCall) : bool :=
  match c with CallWithTimeout _ => true | _ => false end.

(** The arguments a call contributes, and the pattern the calls select. *)
Definition args_of_call (c : OptionCall) : list string :=
  match c with CallWithArgs a => a | _ => [] end.

Definition pattern_of_calls (calls : list OptionCall) : string :=
  fold_left (fun acc c => match c with CallWithPattern p => p | _ => acc end)
            calls DefaultPattern.

(* ================================================================== *)
(** * Paths ([path/filepath] and [path] on a slash-separated system) *)

(** [strings.Split(s, "/")]. *)
Fixpoint components (s : string) : list string :=
  match s with
  | EmptyString => [EmptyString]
  | String c rest =>
      if Ascii.eqb c "/"%char then EmptyString :: components rest
      else match components rest with
           | h :: t => String c h :: t
           | [] => [String c EmptyString]
           end
  end.

Definition nonempty (s : string) : bool := negb (String.eqb s "").

(** [filepath.IsAbs]. *)
Definition IsAbs (p : string) : bool := String.prefix "/" p.

(** The element stack of [Clean]: empty and [.] elements are dropped, an
    inner [..] removes the element before it, a [..] at the start of a
    rooted path is dropped.  [stack] holds the kept elements, last first. *)
Fixpoint clean_stack (rooted : bool) (stack : list string)
    (cs : list string) : list string :=
  match cs with
  | [] => rev stack
  | c :: cs' =>
      if String.eqb c "" || String.eqb c "." then clean_stack rooted stack cs'
      else if String.eqb c ".." then
        match stack with
        | top :: below =>
            if String.eqb top ".." then clean_stack rooted (c :: stack) cs'
            else clean_stack rooted below cs'
        | [] =>
            if rooted then clean_stack rooted [] cs'
            else clean_stack rooted [c] cs'
        end
      else clean_stack rooted (c :: stack) cs'
  end.

(** [filepath.Clean]. *)
Definition Clean (p : string) : string :=
  let rooted := IsAbs p in
  let body := String.concat "/" (clean_stack rooted [] (components p)) in
  if rooted then "/" ^^ body
  else if String.eqb body "" then "." else body.

(** [filepath.Join] and [path.Join]. *)
Definition Join (elem : list string) : string :=
  match filter nonempty elem with
  | [] => ""
  | es => Clean (String.concat "/" es)
  end.

(** [filepath.Base]. *)
Definition Base (p : string) : string :=
  if String.eqb p "" then "."
  else match rev (filter nonempty (components p)) with
       | c :: _ => c
       | [] => "/"
       end.

(* ================================================================== *)
(** * The operating system, as the package sees it *)

(** What [fs.WalkDir] over [os.DirFS(contextPath)] reports: each entry with
    the mode and size of its [FileInfo].  The entries of a directory are in
    the order [ReadDir] reports them (sorted by file name); [readErr] is the
    error of [ReadDir], if any.  Device files and named pipes are outside
    this model; a socket stands for the kinds [tar.FileInfoHeader] refuses. *)
#[warnings="-register-all"]
Inductive node : Type :=
| Regular (perm : Z) (size : Z)
| Directory (perm : Z) (entries : list (string * node)) (readErr : option error)
| Symlink (perm : Z)
| Socket (perm : Z).

(** An open [*os.File], by what reading it to the end and closing it give. *)
Record file : Type := mkFile {
  f_data : list byte;
  f_readErr : option error;
  f_closeErr : option error
}.

(** The calls into package [os] that the package makes, each a function of
    the path it is given. *)
Record OS : Type := mkOS {
  os_Getwd : string + error;
  os_Exists : string -> bool;              (* not [os.IsNotExist] of [os.Stat] *)
  os_ReadFile : string -> list byte + error;
  os_DirFS : string -> node + error;       (* what [os.Stat] finds at [p], and below *)
  os_Readlink : string -> string + error;
  os_Open : string -> file + error
}.

(** [fs.Stat(os.DirFS(p), ".")], the first step of [fs.WalkDir]: [os.DirFS]
    opens the name "." as [p/.], which the system refuses unless a directory
    is at [p]. *)
Definition not_a_directory : error := errorString "stat .: not a directory".

Definition DirFS_Stat (os : OS) (p : string) : node + error :=
  match os_DirFS os p with
  | inl (Directory perm entries readErr) => inl (Directory perm entries readErr)
  | inl _ => inr not_a_directory
  | inr err => inr err
  end.

(** [filepath.Abs]. *)
Definition Abs (os : OS) (p : string) : string + error :=
  if IsAbs p then inl (Clean p)
  else match os_Getwd os with
       | inl wd => inl (Join [wd; p])
       | inr e => inr e
       end.

(* ================================================================== *)
(** * The tar writer ([archive/tar]) *)

Inductive Typeflag : Type := TypeReg | TypeDir | TypeSymlink.

Record Header : Type := mkHeader {
  Name : string;
  Flag : Typeflag;
  Mode : Z;
  Size : Z;
  Linkname : string
}.

(** An entry of the archive: what [tar.Reader.Next] and reading the entry
    give back. *)
Record entry : Type := mkEntry {
  hdr : Header;
  body : list byte
}.

(** The archive, as the sequence of entries a [tar.Reader] replays from the
    start of the returned [io.ReadSeeker]. *)
Definition archive := list entry.

(** A [*tar.Writer]: the entries written so far, the latest first, and the
    number of bytes the latest entry still expects. *)
Record Writer : Type := mkWriter {
  tw_entries : list entry;
  tw_pending : Z
}.

Definition NewWriter : Writer := mkWriter [] 0.

Definition with_Name (h : Header) (n : string) : Header :=
  mkHeader n (Flag h) (Mode h) (Size h) (Linkname h).

Definition with_Linkname (h : Header) (l : string) : Header :=
  mkHeader (Name h) (Flag h) (Mode h) (Size h) l.

(** [tar.FileInfoHeader(info, "")] on the entry called [name]. *)
Definition FileInfoHeader (name : string) (info : node) : Header + error :=
  match info with
  | Regular perm size => inl (mkHeader name TypeReg perm size "")
  | Directory perm _ _ => inl (mkHeader (name ^^ "/") TypeDir perm 0 "")
  | Symlink perm => inl (mkHeader name TypeSymlink perm 0 "")
  | Socket _ => inr (errorString "archive/tar: sockets not supported")
  end.

(** [tw.WriteHeader]: refused while the previous entry is short of bytes and
    for a negative size; only a regular entry expects a body. *)
Definition WriteHeader (tw : Writer) (h : Header) : Writer * option error :=
  if negb (Z.eqb (tw_pending tw) 0) then
    (tw, Some (errorString "archive/tar: missed writing bytes"))
  else if Z.ltb (Size h) 0 then
    (tw, Some (errorString "archive/tar: invalid tar header"))
  else
    (mkWriter (mkEntry h [] :: tw_entries tw)
              (match Flag h with TypeReg => Size h | _ => 0%Z end), None).

(** [tw.Write]: bytes are added to the latest entry, up to its size. *)
Definition Write (tw : Writer) (b : list byte) : Writer * option error :=
  if Z.leb (Z.of_nat (length b)) (tw_pending tw) then
    match tw_entries tw with
    | e :: done =>
        (mkWriter (mkEntry (hdr e) (body e ++ b) :: done)
                  (tw_pending tw - Z.of_nat (length b)), None)
    | [] => (tw, None)
    end
  else (tw, Some (errorString "archive/tar: write too long")).

(** [tw.Close]. *)
Definition Close (tw : Writer) : option error :=
  if negb (Z.eqb (tw_pending tw) 0)
  then Some (errorString "archive/tar: missed writing bytes")
  else None.

(** [io.Copy(tw, file)]: the bytes read go to the writer; the error is that
    of the write, else that of the read. *)
Definition io_Copy (tw : Writer) (f : file) : Writer * option error :=
  match Write tw (f_data f) with
  | (tw', Some e) => (tw', Some e)
  | (tw', None) => (tw', f_readErr f)
  end.

(* ================================================================== *)
(** * The walk ([io/fs], [WalkDir]) *)

(** The type of the callback: path, entry ([None] for a nil [DirEntry]), the
    error handed in, and the writer it works on. *)
Definition WalkDirFunc :=
  string -> option node -> option error -> Writer -> Writer * option error.

(** [fs.walkDir]: the callback on the entry, then on each entry of a
    directory in order, below the path [path.Join(name, entryName)].  The
    callbacks of this package never return [SkipDir] or [SkipAll]. *)
Fixpoint walkDir (fn : WalkDirFunc) (name : string) (d : node) (tw : Writer)
    {struct d} : Writer * option error :=
  match fn name (Some d) None tw with
  | (tw1, Some err) => (tw1, Some err)
  | (tw1, None) =>
      match d with
      | Directory _ entries readErr =>
          let after_read :=
            match readErr with
            | Some err => fn name (Some d) (Some err) tw1
            | None => (tw1, None)
            end in
          match after_read with
          | (tw2, Some err) => (tw2, Some err)
          | (tw2, None) =>
              (fix walk_entries (es : list (string * node)) (tw : Writer)
                 : Writer * option error :=
                 match es with
                 | [] => (tw, None)
                 | (n1, d1) :: es' =>
                     match walkDir fn (Join [name; n1]) d1 tw with
                     | (tw', Some err) => (tw', Some err)
                     | (tw', None) => walk_entries es' tw'
                     end
                 end) entries tw2
          end
      | _ => (tw1, None)
      end
  end.

(** [fs.WalkDir(fsys, root, fn)] with [fsys] what [fs.Stat] gives for the
    root of [os.DirFS]. *)
Definition WalkDir (fsys : node + error) (root : string) (fn : WalkDirFunc)
    (tw : Writer) : Writer * option error :=
  match fsys with
  | inr err => fn root None (Some err) tw
  | inl d => walkDir fn root d tw
  end.

(* ================================================================== *)
(** * The build-context archiver (container.go, [CreateTarContext]) *)

Definition dquote : string := String (ascii_of_nat 34) EmptyString.
Definition newline : string := String (ascii_of_nat 10) EmptyString.

(** The embedded file template.Dockerfile. *)
Definition dockerfileTemplate : string :=
  String.concat newline
    [ "# Dockerfile for running Go tests inside a container";
      "ARG GO_VERSION=1.25.6";
      "";
      "FROM golang:${GO_VERSION}";
      "";
      "WORKDIR /app";
      "";
      "# Copy the entire package (build context)";
      "COPY . .";
      "";
      "# Download dependencies";
      "RUN go mod download";
      "";
      "# Keep container alive for exec commands";
      "ENTRYPOINT [" ^^ dquote ^^ "/bin/sh" ^^ dquote ^^ ", "
        ^^ dquote ^^ "-c" ^^ dquote ^^ ", "
        ^^ dquote ^^ "trap 'exit 0' TERM; while :; do sleep 0.1; done"
        ^^ dquote ^^ "]" ].

(** The callback handed to [fs.WalkDir].  [d.Info()] cannot fail on the
    snapshot; the name [FileInfoHeader] gives the header is replaced by the
    path at once.  [fs.WalkDir] hands in a nil entry only together with an
    error, which the callback returns before looking at the entry: the
    branch for a nil entry without an error is never taken by the walk. *)
Definition walkFn (os : OS) (contextPath : string) : WalkDirFunc :=
  fun path d err tw =>
  match err with
  | Some e => (tw, Some e)
  | None =>
    (* Skip the root directory entry *)
    if String.eqb path "." then (tw, None)
    (* Skip any file named "Dockerfile" *)
    else if String.eqb (Base path) "Dockerfile" then (tw, None)
    else
      match d with
      | None => (tw, Some (errorString "nil DirEntry"))
      | Some info =>
        match FileInfoHeader (Base path) info with
        | inr e =>
            (tw, Some (Errorf_w ("failed to create tar header for " ^^ path ^^ ": ") e))
        | inl header0 =>
          let header1 := with_Name header0 path in
          (* Handle symlinks *)
          let linked :=
            match info with
            | Symlink _ =>
                match os_Readlink os (Join [contextPath; path]) with
                | inr e =>
                    inr (Errorf_w ("failed to read symlink " ^^ path ^^ ": ") e)
                | inl linkTarget => inl (with_Linkname header1 linkTarget)
                end
            | _ => inl header1
            end in
          match linked with
          | inr e => (tw, Some e)
          | inl header =>
            (* Write header *)
            match WriteHeader tw header with
            | (tw1, Some e) =>
                (tw1, Some (Errorf_w ("failed to write tar header for " ^^ path ^^ ": ") e))
            | (tw1, None) =>
              (* For regular files, write the content *)
              match info with
              | Regular _ _ =>
                match os_Open os (Join [contextPath; path]) with
                | inr e =>
                    (tw1, Some (Errorf_w ("failed to open file " ^^ path ^^ ": ") e))
                | inl f =>
                  let '(tw2, copyErr) := io_Copy tw1 f in
                  let closeErr := f_closeErr f in
                  match copyErr, closeErr with
                  | Some e, _ =>
                      (tw2, Some (Errorf_w
                         ("failed to write file content for " ^^ path ^^ ": ") e))
                  | None, Some e =>
                      (tw2, Some (Errorf_w ("failed to close file " ^^ path ^^ ": ") e))
                  | None, None => (tw2, None)
                  end
                end
              | _ => (tw1, None)
              end
            end
          end
        end
      end
  end.

(** The path the override recipe is read from. *)
Definition resolve_dockerfile (contextPath dockerfilePath : string) : string :=
  if IsAbs dockerfilePath then dockerfilePath
  else Join [contextPath; dockerfilePath].

(** The recipe header: mode 0644, the zero type flag (a regular file). *)
Definition dockerfileHeader (dockerfileContent : list byte) : Header :=
  mkHeader "Dockerfile" TypeReg 420 (Z.of_nat (length dockerfileContent)) "".

Definition CreateTarContext (os : OS) (contextPath dockerfilePath : string)
  : option archive * option error :=
  let tw := NewWriter in
  (* Get the Dockerfile content *)
  let content :=
    if String.eqb dockerfilePath "" then
      inl (list_byte_of_string dockerfileTemplate)
    else
      let fullPath := resolve_dockerfile contextPath dockerfilePath in
      match os_ReadFile os fullPath with
      | inr e =>
          inr (Errorf_w ("failed to read custom Dockerfile at " ^^ fullPath ^^ ": ") e)
      | inl c => inl c
      end in
  match content with
  | inr e => (None, Some e)
  | inl dockerfileContent =>
    (* Walk the context directory and add all files to the tar *)
    match WalkDir (DirFS_Stat os contextPath) "." (walkFn os contextPath) tw with
    | (_, Some e) => (None, Some (Errorf_w "failed to walk context directory: " e))
    | (tw1, None) =>
      (* Add the Dockerfile to the tar archive *)
      match WriteHeader tw1 (dockerfileHeader dockerfileContent) with
      | (_, Some e) => (None, Some (Errorf_w "failed to write Dockerfile header: " e))
      | (tw2, None) =>
        match Write tw2 dockerfileContent with
        | (_, Some e) =>
            (None, Some (Errorf_w "failed to write Dockerfile content: " e))
        | (tw3, None) =>
          match Close tw3 with
          | Some e => (None, Some (Errorf_w "failed to close tar writer: " e))
          | None => (Some (rev (tw_entries tw3)), None)
          end
        end
      end
    end
  end.

(** The entries of an archive at a given path. *)
Definition entries_at (name : string) (a : archive) : list entry :=
  filter (fun e => String.eqb (Name (hdr e)) name) a.

(** The path [fs.WalkDir] reports for the entry reached from the root through
    the directory entries named [p], in order. *)
Definition walk_path (p : list string) : string :=
  fold_left (fun name n1 => Join [name; n1]) p ".".

(** The entry of a directory listing with a given name. *)
Fixpoint find_entry (n1 : string) (es : list (string * node)) : option node :=
  match es with
  | [] => None
  | (n, d1) :: es' => if String.eqb n n1 then Some d1 else find_entry n1 es'
  end.

(** The entry reached in a tree by the names [p]. *)
Fixpoint node_at (d : node) (p : list string) : option node :=
  match p with
  | [] => Some d
  | n1 :: p' =>
      match d with
      | Directory _ entries _ =>
          match find_entry n1 entries with
          | Some d1 => node_at d1 p'
          | None => None
          end
      | _ => None
      end
  end.

(** The loop of [fs.walkDir] over the entries of a directory. *)
Fixpoint walk_list (fn : WalkDirFunc) (name : string)
    (es : list (string * node)) (tw : Writer) : Writer * option error :=
  match es with
  | [] => (tw, None)
  | (n1, d1) :: es' =>
      match walkDir fn (Join [name; n1]) d1 tw with
      | (tw', Some err) => (tw', Some err)
      | (tw', None) => walk_list fn name es' tw'
      end
  end.

(** The archive entry of a walked file-system entry [info] at the walk path
    [path]: its kind and mode; for a regular file the bytes of the file
    opened at [filepath.Join(contextPath, path)], read to the end; for a
    link the target [os.Readlink] reports there. *)
Definition entry_of (os : OS) (contextPath path : string) (info : node)
    (e : entry) : Prop :=
  Name (hdr e) = path /\
  match info with
  | Regular perm size =>
      Flag (hdr e) = TypeReg /\ Mode (hdr e) = perm /\ Size (hdr e) = size /\
      exists f, os_Open os (Join [contextPath; path]) = inl f /\
                f_readErr f = None /\ body e = f_data f
  | Directory perm _ _ =>
      Flag (hdr e) = TypeDir /\ Mode (hdr e) = perm /\ body e = []
  | Symlink perm =>
      Flag (hdr e) = TypeSymlink /\ Mode (hdr e) = perm /\ body e = [] /\
      os_Readlink os (Join [contextPath; path]) = inl (Linkname (hdr e))
  | Socket _ => False
  end.

(* ================================================================== *)
(** * The container engine (testcontainers-go), as the package sees it *)

(** How a call ends: it returns, or it panics. *)
Inductive outcome (A : Type) : Type :=
| Returns (a : A)
| Panics (v : string).
Arguments Returns {A} a.
Arguments Panics {A} v.

(** A [*testcontainers.DockerNetwork] and a [testcontainers.Container]. *)
Record tcNetwork : Type := mkTcNetwork { tc_ID : nat; tc_Name : string }.
Definition tcContainer := nat.

(** An [io.Reader] handed out by the engine, by what [io.ReadAll] gives on
    it: the bytes read and the error that ended the reading, if any. *)
Record reader : Type := mkReader {
  r_data : list byte;
  r_err : option error
}.

Record Mount : Type := mkMount { Source : string; Target : string }.

Record ContainerRequest : Type := mkContainerRequest {
  ContextArchive : option archive;
  Dockerfile : string;
  WaitingFor : list string;
  Env : list (string * string);
  Networks : list string;
  NetworkAliases : list (string * list string)
}.

Record GenericContainerRequest : Type := mkGenericContainerRequest {
  Request : ContainerRequest;
  Started : bool;
  HostConfigModifier : list Mount    (* the mounts the modifiers append *)
}.

(** One call into the engine, with the context it was given and how it
    ended; the writing of bytes to the standard output of the process is an
    event too, with the error of the write, if any. *)
Inductive event : Type :=
| EvNetworkNew (ctx : context) (r : outcome (tcNetwork + error))
| EvNetworkRemove (nw : tcNetwork) (ctx : context) (r : outcome (option error))
| EvGenericContainer (ctx : context) (req : GenericContainerRequest)
                     (r : outcome (tcContainer + error))
| EvExec (c : tcContainer) (ctx : context) (cmd : list string)
         (r : outcome (Z * option reader + error))
| EvStdout (data : list byte) (r : option error)
| EvCopyFile (c : tcContainer) (ctx : context) (path : string)
             (r : outcome (reader + error))
| EvTerminate (c : tcContainer) (ctx : context) (r : outcome (option error)).

(** The engine: each call is a function of its arguments and of the world,
    and gives an outcome and the next world.  [ctx_Err] is [ctx.Err()].  The
    two [Customize] functions are those of the options [network.WithNetwork]
    and [testcontainers.WithHostConfigModifier]; the modifier of this
    package is given by the mount it appends.  [stdout_Write] is
    [os.Stdout.Write], which is part of the same world: it returns the error
    of the write, if any. *)
Record Engine (World : Type) : Type := mkEngine {
  ctx_Err : context -> World -> option error;
  network_New : context -> World -> outcome (tcNetwork + error) * World;
  network_Remove : tcNetwork -> context -> World -> outcome (option error) * World;
  WithNetwork_Customize :
    list string -> tcNetwork -> GenericContainerRequest ->
    GenericContainerRequest + error;
  WithHostConfigModifier_Customize :
    Mount -> GenericContainerRequest -> GenericContainerRequest + error;
  GenericContainer :
    context -> GenericContainerRequest -> World ->
    outcome (tcContainer + error) * World;
  ctr_Exec :
    tcContainer -> context -> list string -> World ->
    outcome (Z * option reader + error) * World;
  ctr_CopyFileFromContainer :
    tcContainer -> context -> string -> World ->
    outcome (reader + error) * World;
  ctr_Terminate : tcContainer -> context -> World -> outcome (option error) * World;
  stdout_Write : list byte -> World -> option error * World;
  Duration_String : Duration -> string
}.
Arguments ctx_Err {World} _ _ _.
Arguments network_New {World} _ _ _.
Arguments network_Remove {World} _ _ _ _.
Arguments WithNetwork_Customize {World} _ _ _ _.
Arguments WithHostConfigModifier_Customize {World} _ _ _.
Arguments GenericContainer {World} _ _ _ _.
Arguments ctr_Exec {World} _ _ _ _ _.
Arguments ctr_CopyFileFromContainer {World} _ _ _ _ _.
Arguments ctr_Terminate {World} _ _ _ _.
Arguments stdout_Write {World} _ _ _.
Arguments Duration_String {World} _ _.

(* ================================================================== *)
(** * The monad of the stateful code: world, trace, panics *)

Definition M (World A : Type) : Type :=
  World * list event -> outcome A * (World * list event).

Definition ret {World A : Type} (a : A) : M World A :=
  fun s => (Returns a, s).

Definition bind {World A B : Type} (m : M World A) (k : A -> M World B)
  : M World B :=
  fun s =>
    match m s with
    | (Returns a, s') => k a s'
    | (Panics v, s') => (Panics v, s')
    end.

Notation "x <- m ;; k" := (bind m (fun x => k))
  (at level 61, m at next level, right associativity).
Notation "' pat <- m ;; k" := (bind m (fun x => match x with pat => k end))
  (at level 61, pat pattern, m at next level, right associativity).

(** A call into the engine: it runs on the world and is logged. *)
Definition call {World A : Type} (op : World -> outcome A * World)
    (ev : outcome A -> event) : M World A :=
  fun s =>
    let '(r, w') := op (fst s) in (r, (w', snd s ++ [ev r])).

(** A write to the standard output: it runs on the world and is logged. *)
Definition write_stdout {World : Type} (E : Engine World) (data : list byte)
  : M World (option error) :=
  fun s =>
    let '(r, w') := stdout_Write E data (fst s) in
    (Returns r, (w', snd s ++ [EvStdout data r])).

(** Reading [ctx.Err()]. *)
Definition get_ctx_Err {World : Type} (E : Engine World) (ctx : context)
  : M World (option error) :=
  fun s => (Returns (ctx_Err E ctx (fst s)), s).

(** [defer cleanup()] in front of [body]: the cleanup runs when the body has
    returned and when it has panicked; the value of the body is kept, unless
    the cleanup itself panics.  A [defer] registered later is nested deeper,
    so it runs earlier. *)
Definition defer {World A : Type} (cleanup : M World unit) (body : M World A)
  : M World A :=
  fun s =>
    let '(o, s1) := body s in
    match cleanup s1 with
    | (Returns _, s2) => (o, s2)
    | (Panics v, s2) => (Panics v, s2)
    end.

(** The [cancel] function of [context.WithTimeout]: nothing the package
    observes depends on it. *)
Definition cancel {World : Type} : M World unit := ret tt.

(** The runtime panic of a nil dereference. *)
Definition nil_dereference {World A : Type} : M World A :=
  fun s => (Panics "invalid memory address or nil pointer dereference", s).

(* ================================================================== *)
(** * Sessions and the orchestrator *)

Section Orchestrator.

Context {World : Type}.
Variable E : Engine World.
Variable os : OS.

Local Abbreviation M := (M World).

(** network.go *)
Record DockerNetwork : Type := mkDockerNetwork {
  net_Name : string;
  network : option tcNetwork
}.

Definition CreateNetwork (ctx : context)
  : M (option DockerNetwork * option (context -> M (option error)) * option error) :=
  r <- call (network_New E ctx) (EvNetworkNew ctx) ;;
  match r with
  | inr err =>
      ret (None, None, Some (Errorf_w "failed to create docker network: " err))
  | inl net =>
      let dn := mkDockerNetwork (tc_Name net) (Some net) in
      let cleanup := fun ctx : context =>
        r <- call (network_Remove E net ctx) (EvNetworkRemove net ctx) ;;
        match r with
        | Some err => ret (Some (Errorf_w "failed to remove docker network: " err))
        | None => ret None
        end in
      ret (Some dn, Some cleanup, None)
  end.

Definition DockerNetwork_Remove (n : DockerNetwork) (ctx : context)
  : M (option error) :=
  match network n with
  | None => ret None
  | Some net =>
      r <- call (network_Remove E net ctx) (EvNetworkRemove net ctx) ;;
      match r with
      | Some err => ret (Some (Errorf_w "failed to remove docker network: " err))
      | None => ret None
      end
  end.

(** container.go *)
Record TestContainer : Type := mkTestContainer {
  ctr : option tcContainer
}.

Record CreateContainerConfig : Type := mkCreateContainerConfig {
  cfg_PackagePath : string;
  cfg_Network : option DockerNetwork;
  cfg_Aliases : list string;
  cfg_EnableVarSock : bool;
  cfg_SockPath : string;
  cfg_NetworkName : string;
  cfg_DockerfilePath : string
}.

Definition CreateContainer (ctx : context) (cfg : CreateContainerConfig)
  : M (option TestContainer * option error) :=
  (* Validate package path exists *)
  match Abs os (cfg_PackagePath cfg) with
  | inr err =>
      ret (None, Some (Errorf_w "failed to get absolute path for package: " err))
  | inl absPath =>
    if negb (os_Exists os absPath) then
      ret (None, Some (errorString ("package path does not exist: " ^^ absPath)))
    else
    match CreateTarContext os absPath (cfg_DockerfilePath cfg) with
    | (_, Some err) =>
        ret (None, Some (Errorf_w "failed to create tar context: " err))
    | (contextArchive, None) =>
      (* Build container request, environment, network and aliases *)
      let env :=
        if nonempty (cfg_NetworkName cfg)
        then [("TESTCONTAINERS_DOCKER_NETWORK", cfg_NetworkName cfg)] else [] in
      let networks :=
        match cfg_Network cfg with
        | Some n => [net_Name n]
        | None => []
        end in
      let aliases :=
        match cfg_Network cfg with
        | Some n =>
            match cfg_Aliases cfg with
            | [] => []
            | _ => [(net_Name n, cfg_Aliases cfg)]
            end
        | None => []
        end in
      let req := mkContainerRequest contextArchive "Dockerfile"
                   ["echo"; "ready"] env networks aliases in
      let genReq := mkGenericContainerRequest req true [] in
      (* Apply network option if network is provided *)
      let withNet :=
        match cfg_Network cfg with
        | Some n =>
            match network n with
            | Some net => WithNetwork_Customize E (cfg_Aliases cfg) net genReq
            | None => inl genReq
            end
        | None => inl genReq
        end in
      match withNet with
      | inr err => ret (None, Some (Errorf_w "failed to apply network option: " err))
      | inl genReq1 =>
        (* Mount Docker socket if enabled *)
        let withSock :=
          if cfg_EnableVarSock cfg then
            let sockPath := if String.eqb (cfg_SockPath cfg) ""
                            then DefaultSockPath else cfg_SockPath cfg in
            WithHostConfigModifier_Customize E
              (mkMount sockPath "/var/run/docker.sock") genReq1
          else inl genReq1 in
        match withSock with
        | inr err =>
            ret (None, Some (Errorf_w "failed to apply host config option: " err))
        | inl genReq2 =>
          r <- call (GenericContainer E ctx genReq2) (EvGenericContainer ctx genReq2) ;;
          match r with
          | inr err => ret (None, Some (Errorf_w "failed to create container: " err))
          | inl c => ret (Some (mkTestContainer (Some c)), None)
          end
        end
      end
    end
  end.

Definition Terminate (c : TestContainer) (ctx : context) : M (option error) :=
  match ctr c with
  | None => ret None
  | Some h =>
      r <- call (ctr_Terminate E h ctx) (EvTerminate h ctx) ;;
      match r with
      | Some err => ret (Some (Errorf_w "failed to terminate container: " err))
      | None => ret None
      end
  end.

(** coverage.go *)
Definition CopyFileFromContainer (c : TestContainer) (ctx : context)
    (containerFilePath : string) : M (option (list byte) * option error) :=
  match ctr c with
  | None => ret (None, Some (errorString "container is nil"))
  | Some h =>
      r <- call (ctr_CopyFileFromContainer E h ctx containerFilePath)
                (EvCopyFile h ctx containerFilePath) ;;
      match r with
      | inr _ => ret (None, None)
      | inl rd =>
          (* Read all content from the reader *)
          match r_err rd with
          | Some err => ret (None, Some (Errorf_w "failed to read file content: " err))
          | None => ret (Some (r_data rd), None)
          end
      end
  end.

Definition CopyCoverage (c : TestContainer) (ctx : context)
  : M (option (list byte) * option error) :=
  CopyFileFromContainer c ctx DefaultCoverageFile.

Definition CopyCoverageFromPath (c : TestContainer) (ctx : context)
    (coveragePath : string) : M (option (list byte) * option error) :=
  CopyFileFromContainer c ctx
    (if String.eqb coveragePath "" then DefaultCoverageFile else coveragePath).

(** exec.go *)
Definition DefaultExecTimeout : Duration := (10 * Minute)%Z.

Record ExecConfig : Type := mkExecConfig {
  ec_Pattern : string;
  ec_Args : list string;
  ec_CoverageFile : string;
  ec_Timeout : Duration
}.

Record ExecResult : Type := mkExecResult {
  exec_Stdout : option (list byte);
  exec_ExitCode : Z
}.

Definition ExecTest (c : TestContainer) (ctx : context) (cfg : ExecConfig)
  : M (option ExecResult * option error) :=
  match ctr c with
  | None => ret (None, Some (errorString "container is nil"))
  | Some h =>
    (* Apply defaults *)
    let pattern := if String.eqb (ec_Pattern cfg) ""
                   then DefaultPattern else ec_Pattern cfg in
    let coverageFile := if String.eqb (ec_CoverageFile cfg) ""
                        then "/tmp/coverage.txt" else ec_CoverageFile cfg in
    let timeout := if Z.eqb (ec_Timeout cfg) 0
                   then DefaultExecTimeout else ec_Timeout cfg in
    (* Build the go test command *)
    let cmd := ["go"; "test"; "-coverprofile=" ^^ coverageFile; pattern]
               ++ ec_Args cfg in
    (* Create a context with timeout *)
    let execCtx := WithTimeout ctx timeout in
    defer cancel (
      r <- call (ctr_Exec E h execCtx cmd) (EvExec h execCtx cmd) ;;
      match r with
      | inr err =>
          ctxErr <- get_ctx_Err E execCtx ;;
          match ctxErr with
          | Some deadlineExceededError =>
              ret (None, Some (Errorf_w
                ("test execution timed out after "
                   ^^ Duration_String E timeout ^^ ": ") err))
          | _ => ret (None, Some (Errorf_w "failed to execute test command: " err))
          end
      | inl (exitCode, rdr) =>
          match rdr with
          | None => ret (Some (mkExecResult None exitCode), None)
          | Some rd =>
              match r_err rd with
              | Some err =>
                  ret (None, Some (Errorf_w "failed to read test output: " err))
              | None => ret (Some (mkExecResult (Some (r_data rd)) exitCode), None)
              end
          end
      end)
  end.

(** run.go *)
Record Result : Type := mkResult {
  Stdout : option (list byte);
  Coverage : option (list byte);
  ExitCode : Z
}.

(** The argv of the test command. *)
Definition test_command (options : Options) : list string :=
  ["go"; "test"; "-coverprofile=" ^^ DefaultCoverageFile; Pattern options]
  ++ Args options.

(** [io.ReadAll(io.TeeReader(reader, os.Stdout))]: the bytes read are
    written to the standard output before they are handed on, and the error
    of a failed write ends the reading in place of the error of the reader.
    The writes of the chunks read are taken together as one write; nothing
    is written when nothing was read. *)
Definition ReadAll_TeeReader (rd : reader) : M (list byte * option error) :=
  match r_data rd with
  | [] => ret (r_data rd, r_err rd)
  | _ =>
      w <- write_stdout E (r_data rd) ;;
      match w with
      | Some err => ret (r_data rd, Some err)
      | None => ret (r_data rd, r_err rd)
      end
  end.

(** [execTestWithStreaming]: the output read is also written to the
    standard output of the process. *)
Definition execTestWithStreaming (ctx : context) (container : TestContainer)
    (options : Options) : M (option ExecResult * option error) :=
  match ctr container with
  | None => ret (None, Some (errorString "container is nil"))
  | Some h =>
    (* Build the go test command *)
    let cmd := test_command options in
    (* Execute the command in the container with multiplexed output *)
    r <- call (ctr_Exec E h ctx cmd) (EvExec h ctx cmd) ;;
    match r with
    | inr err =>
        ctxErr <- get_ctx_Err E ctx ;;
        ret (None, wrapTimeoutError ctxErr (Some err) "execute test command")
    | inl (exitCode, rdr) =>
        match rdr with
        | None => ret (Some (mkExecResult None exitCode), None)
        | Some rd =>
            (* Stream output to os.Stdout while also capturing it *)
            '(output, err) <- ReadAll_TeeReader rd ;;
            match err with
            | Some err =>
                ctxErr <- get_ctx_Err E ctx ;;
                ret (None, wrapTimeoutError ctxErr (Some err) "read test output")
            | None => ret (Some (mkExecResult (Some output) exitCode), None)
            end
        end
    end
  end.

(** The context the phases of [Run] work under. *)
Definition run_context (ctx : context) (options : Options) : context :=
  if Z.ltb 0 (Timeout options) then WithTimeout ctx (Timeout options) else ctx.

Definition Run (ctx : context) (packagePath : string) (opts : list Option)
  : M (option Result * option error) :=
  (* Parse options *)
  match NewOptions packagePath opts with
  | (_, Some err) => ret (None, Some (Errorf_w "invalid options: " err))
  | (None, None) => nil_dereference
  | (Some options, None) =>
    (* Apply timeout to context if configured *)
    let ctx0 := ctx in
    let ctx := run_context ctx0 options in
    defer (if Z.ltb 0 (Timeout options) then cancel else ret tt) (
      (* Create network *)
      '(network, cleanupNetwork, err) <- CreateNetwork ctx ;;
      match err with
      | Some e =>
          ctxErr <- get_ctx_Err E ctx ;;
          ret (None, wrapTimeoutError ctxErr (Some e) "create network")
      | None =>
        (* Ensure network cleanup always happens *)
        defer (match cleanupNetwork with
               | Some cleanup => _ <- cleanup ctx ;; ret tt
               | None => ret tt
               end) (
          match network with
          | None => nil_dereference
          | Some network =>
            (* Create container *)
            '(container, err) <- CreateContainer ctx
               (mkCreateContainerConfig (PackagePath options) (Some network)
                  (Aliases options) (EnableVarSock options) (SockPath options)
                  (net_Name network) "") ;;
            match err with
            | Some e =>
                ctxErr <- get_ctx_Err E ctx ;;
                ret (None, wrapTimeoutError ctxErr (Some e) "create container")
            | None =>
              (* Ensure container cleanup always happens *)
              defer (match container with
                     | Some c => _ <- Terminate c ctx ;; ret tt
                     | None => ret tt
                     end) (
                match container with
                | None => nil_dereference
                | Some c =>
                  (* Execute tests with real-time output forwarding *)
                  '(result, err) <- execTestWithStreaming ctx c options ;;
                  match err with
                  | Some e =>
                      ctxErr <- get_ctx_Err E ctx ;;
                      ret (None, wrapTimeoutError ctxErr (Some e) "execute tests")
                  | None =>
                    match result with
                    | None => nil_dereference
                    | Some result =>
                      (* Copy coverage file from container *)
                      '(coverage, err) <- CopyCoverage c ctx ;;
                      let coverage := match err with
                                      | Some _ => None
                                      | None => coverage
                                      end in
                      ret (Some (mkResult (exec_Stdout result) coverage
                                          (exec_ExitCode result)), None)
                    end
                  end
                end)
            end
          end)
      end)
  end.

End Orchestrator.

(* ================================================================== *)
(** * Reading a trace *)

(** The context an engine call was given. *)
Definition event_ctx (ev : event) : option context :=
  match ev with
  | EvNetworkNew ctx _ => Some ctx
  | EvNetworkRemove _ ctx _ => Some ctx
  | EvGenericContainer ctx _ _ => Some ctx
  | EvExec _ ctx _ _ => Some ctx
  | EvStdout _ _ => None
  | EvCopyFile _ ctx _ _ => Some ctx
  | EvTerminate _ ctx _ => Some ctx
  end.

(** The event is an engine call made under the context [c], or no engine
    call at all. *)
Definition under_ctx (c : context) (ev : event) : Prop :=
  match event_ctx ev with
  | Some c' => c' = c
  | None => True
  end.

(** The two cleanup calls. *)
Definition is_cleanup (ev : event) : bool :=
  match ev with
  | EvNetworkRemove _ _ _ => true
  | EvTerminate _ _ _ => true
  | _ => false
  end.

Definition outcome_panicked {A : Type} (o : outcome A) : bool :=
  match o with Panics _ => true | Returns _ => false end.

(** The call of the event ended in a panic. *)
Definition event_panicked (ev : event) : bool :=
  match ev with
  | EvNetworkNew _ r => outcome_panicked r
  | EvNetworkRemove _ _ r => outcome_panicked r
  | EvGenericContainer _ _ r => outcome_panicked r
  | EvExec _ _ _ r => outcome_panicked r
  | EvStdout _ _ => false
  | EvCopyFile _ _ _ r => outcome_panicked r
  | EvTerminate _ _ r => outcome_panicked r
  end.

(** The output of a finished command was read to its end. *)
Definition read_ok (rdr : option reader) : bool :=
  match rdr with
  | Some rd => match r_err rd with None => true | Some _ => false end
  | None => true
  end.

(** The names [Run] gives to its phases. *)
Definition run_phases : list string :=
  ["create network"; "create container"; "execute tests"].

(** An engine whose two teardown calls are replaced by calls that return
    (an error or none) and never panic. *)
Definition with_teardown {World : Type} (E : Engine World)
    (terminate : tcContainer -> context -> World -> option error * World)
    (remove : tcNetwork -> context -> World -> option error * World)
  : Engine World :=
  mkEngine World (ctx_Err E) (network_New E)
    (fun nw ctx w => let '(r, w') := remove nw ctx w in (Returns r, w'))
    (WithNetwork_Customize E) (WithHostConfigModifier_Customize E)
    (GenericContainer E) (ctr_Exec E) (ctr_CopyFileFromContainer E)
    (fun c ctx w => let '(r, w') := terminate c ctx w in (Returns r, w'))
    (stdout_Write E) (Duration_String E).

(* ================================================================== *)
(** * Concrete inputs *)

Definition bytes (s : string) : list byte := list_byte_of_string s.

Definition size_of (s : string) : Z := Z.of_nat (String.length s).

(** The files of an example package at /ctx: a recipe of its own, a module
    file, a link, and a directory that holds a source file and a recipe. *)
Definition ex_files : list (string * string) :=
  [ ("/ctx/Dockerfile", "FROM original:latest");
    ("/ctx/custom.Dockerfile", "FROM alpine:latest");
    ("/ctx/go.mod", "module test");
    ("/ctx/subdir/Dockerfile", "FROM nested:1");
    ("/ctx/subdir/helper.go", "package subdir");
    ("/recipes/external.Dockerfile", "FROM golang:1.21") ].

Fixpoint assoc (k : string) (l : list (string * string)) : option string :=
  match l with
  | [] => None
  | (k', v) :: l' => if String.eqb k k' then Some v else assoc k l'
  end.

Definition ex_size (p : string) : Z :=
  match assoc p ex_files with Some c => size_of c | None => 0%Z end.

Definition ex_tree : node :=
  Directory 493
    [ ("Dockerfile", Regular 420 (ex_size "/ctx/Dockerfile"));
      ("custom.Dockerfile", Regular 420 (ex_size "/ctx/custom.Dockerfile"));
      ("go.mod", Regular 420 (ex_size "/ctx/go.mod"));
      ("link", Symlink 511);
      ("subdir", Directory 493
         [ ("Dockerfile", Regular 420 (ex_size "/ctx/subdir/Dockerfile"));
           ("helper.go", Regular 420 (ex_size "/ctx/subdir/helper.go")) ]
         None) ]
    None.

Definition not_exist (op p : string) : error :=
  errorString (op ^^ " " ^^ p ^^ ": no such file or directory").

Definition ex_os : OS :=
  mkOS (inl "/work")
       (fun p => String.eqb p "/ctx")
       (fun p => match assoc p ex_files with
                 | Some c => inl (bytes c)
                 | None => inr (not_exist "open" p)
                 end)
       (fun p => if String.eqb p "/ctx" then inl ex_tree
                 else inr (not_exist "stat" p))
       (fun p => if String.eqb p "/ctx/link" then inl "go.mod"
                 else inr (not_exist "readlink" p))
       (fun p => match assoc p ex_files with
                 | Some c => inl (mkFile (bytes c) None None)
                 | None => inr (not_exist "open" p)
                 end).

(** An engine for examples.  The world counts the calls made; a context
    derived by [WithTimeout] has expired once the count has reached
    [deadline]; a call under an expired context fails with the error of the
    context, any other call succeeds.  The test command exits with
    [exitCode]; the coverage file holds [coverage], or is missing.  Writes
    to the standard output succeed and are not counted. *)
Definition ex_expired (deadline : nat) (ctx : context) (w : nat) : bool :=
  match ctx with
  | WithTimeout _ _ => Nat.leb deadline w
  | Background => false
  end.

Definition ex_call {A : Type} (deadline : nat) (ctx : context) (v : A + error)
    (w : nat) : outcome (A + error) * nat :=
  if ex_expired deadline ctx w
  then (Returns (inr deadlineExceededError), S w)
  else (Returns v, S w).

Definition ex_teardown (deadline : nat) (ctx : context) (w : nat)
  : outcome (option error) * nat :=
  if ex_expired deadline ctx w
  then (Returns (Some deadlineExceededError), S w)
  else (Returns None, S w).

Definition ex_output : list byte := bytes "--- FAIL: TestX".

Definition ex_engine (deadline : nat) (exitCode : Z)
    (coverage : option (list byte)) : Engine nat :=
  mkEngine nat
    (fun ctx w => if ex_expired deadline ctx w
                  then Some deadlineExceededError else None)
    (fun ctx => ex_call deadline ctx (inl (mkTcNetwork 1 "net-1")))
    (fun _ ctx => ex_teardown deadline ctx)
    (fun _ _ req => inl req)
    (fun m req => inl (mkGenericContainerRequest (Request req) (Started req)
                         (HostConfigModifier req ++ [m])))
    (fun ctx _ => ex_call deadline ctx (inl 7%nat))
    (fun _ ctx _ => ex_call deadline ctx
                      (inl (exitCode, Some (mkReader ex_output None))))
    (fun _ ctx _ => ex_call deadline ctx
                      (match coverage with
                       | Some b => inl (mkReader b None)
                       | None => inr (errorString "file not found")
                       end))
    (fun _ ctx => ex_teardown deadline ctx)
    (fun _ w => (None, w))
    (fun _ => "10m0s").

(** An engine without deadline trouble: the deadline is never reached. *)
Definition ex_never : nat := 1000.

(** The path of the entry reached from the directory walked at [name]
    through the entries named [p]. *)
Definition path_below (name : string) (p : list string) : string :=
  fold_left (fun a b => Join [a; b]) p name.

(** What a successful walk of the tree [d] at the path [name] adds to the
    entries of the writer: entries whose base name is not the reserved one
    and whose name is not that of the root, among them one for every entry
    of the tree that is neither the root of the walk nor named Dockerfile. *)
Definition walk_adds (os : OS) (contextPath name : string) (d : node)
    (older newer : list entry) : Prop :=
  exists new,
    newer = new ++ older /\
    (forall e, In e new ->
       Base (Name (hdr e)) <> "Dockerfile" /\ Name (hdr e) <> ".") /\
    (forall p n, node_at d p = Some n ->
       path_below name p <> "." ->
       Base (path_below name p) <> "Dockerfile" ->
       exists e, In e new /\ entry_of os contextPath (path_below name p) n e).

(* ================================================================== *)
(** * Further vocabulary for statements *)

(** What the configuration calls select for the other fields of the
    options: the aliases of the WithAliases calls in order, the socket path
    and the timeout of the last call that sets them, and whether some call
    is WithVarSock. *)
Definition aliases_of_call (c : OptionCall) : list string :=
  match c with CallWithAliases a => a | _ => [] end.

Definition sockpath_of_calls (calls : list OptionCall) : string :=
  fold_left (fun acc c => match c with CallWithSockPath p => p | _ => acc end)
            calls DefaultSockPath.

Definition timeout_of_calls (calls : list OptionCall) : Duration :=
  fold_left (fun acc c => match c with CallWithTimeout t => t | _ => acc end)
            calls DefaultTimeout.

Definition varsock_of_calls (calls : list OptionCall) : bool :=
  existsb (fun c => match c with CallWithVarSock => true | _ => false end) calls.

(** An archive entry is complete: a regular entry has as many bytes as its
    header says, any other entry has none. *)
Definition entry_complete (e : entry) : bool :=
  match Flag (hdr e) with
  | TypeReg => Z.eqb (Z.of_nat (length (body e))) (Size (hdr e))
  | _ => match body e with [] => true | _ => false end
  end.

(** The state of a writer between two calls: the entries before the latest
    are complete, and the latest lacks exactly the pending bytes. *)
Definition writer_consistent (tw : Writer) : Prop :=
  match tw_entries tw with
  | [] => tw_pending tw = 0%Z
  | e :: done =>
      Forall (fun e' => entry_complete e' = true) done /\
      match Flag (hdr e) with
      | TypeReg =>
          Size (hdr e) = (Z.of_nat (length (body e)) + tw_pending tw)%Z
      | _ => body e = [] /\ tw_pending tw = 0%Z
      end
  end.

(** An entry of the tree, at the walk path [path], that the callback cannot
    archive: a socket; a regular file that cannot be opened, or whose
    reading fails, or that does not hold as many bytes as its [FileInfo]
    says; a link whose target cannot be read. *)
Definition entry_unreadable (os : OS) (contextPath path : string) (info : node)
  : Prop :=
  match info with
  | Socket _ => True
  | Regular _ size =>
      match os_Open os (Join [contextPath; path]) with
      | inr _ => True
      | inl f =>
          f_readErr f <> None \/ Z.of_nat (length (f_data f)) <> size
      end
  | Symlink _ =>
      match os_Readlink os (Join [contextPath; path]) with
      | inr _ => True
      | inl _ => False
      end
  | Directory _ _ _ => False
  end.

Definition is_network_remove (ev : event) : bool :=
  match ev with EvNetworkRemove _ _ _ => true | _ => false end.

Definition is_terminate (ev : event) : bool :=
  match ev with EvTerminate _ _ _ => true | _ => false end.

(** What [Run] makes of the outcome of the copy of the coverage file. *)
Definition coverage_of (r : outcome (reader + error)) : option (list byte) :=
  match r with
  | Returns (inl rd) =>
      match r_err rd with
      | None => Some (r_data rd)
      | Some _ => None
      end
  | _ => None
  end.

(** A package at /bad that cannot be archived: a directory that cannot be
    listed, and a file that holds 3 bytes where its [FileInfo] says 10. *)
Definition ex_tree_bad : node :=
  Directory 493
    [ ("Dockerfile",
       Directory 448 [] (Some (errorString "open Dockerfile: permission denied")));
      ("short.txt", Regular 420 10) ]
    None.

Definition ex_os_bad : OS :=
  mkOS (inl "/work")
       (fun p => String.eqb p "/bad")
       (fun p => inr (not_exist "open" p))
       (fun p => if String.eqb p "/bad" then inl ex_tree_bad
                 else inr (not_exist "stat" p))
       (fun p => inr (not_exist "readlink" p))
       (fun p => if String.eqb p "/bad/short.txt"
                 then inl (mkFile (bytes "abc") None None)
                 else inr (not_exist "open" p)).


(** The configuration [Run] creates its container with, on the network
    [net]. *)
Definition run_container_config (options : Options) (net : tcNetwork)
  : CreateContainerConfig :=
  mkCreateContainerConfig (PackagePath options)
    (Some (mkDockerNetwork (tc_Name net) (Some net)))
    (Aliases options) (EnableVarSock options) (SockPath options)
    (tc_Name net) "".

(** No write to the standard output failed. *)
Definition stdout_ok (tr : list event) : bool :=
  forallb (fun ev => match ev with EvStdout _ (Some _) => false | _ => true end) tr.







(** The example engine with a standard output that is closed, and with a
    test command whose call panics. *)
Definition ex_engine_stdout_closed (exitCode : Z) : Engine nat :=
  let E := ex_engine ex_never exitCode None in
  mkEngine nat (ctx_Err E) (network_New E) (network_Remove E)
    (WithNetwork_Customize E) (WithHostConfigModifier_Customize E)
    (GenericContainer E) (ctr_Exec E) (ctr_CopyFileFromContainer E)
    (ctr_Terminate E)
    (fun _ w => (Some (errorString "write /dev/stdout: file already closed"), w))
    (Duration_String E).

Definition ex_engine_exec_panics : Engine nat :=
  let E := ex_engine ex_never 0 None in
  mkEngine nat (ctx_Err E) (network_New E) (network_Remove E)
    (WithNetwork_Customize E) (WithHostConfigModifier_Customize E)
    (GenericContainer E)
    (fun _ _ _ w => (Panics "exec: connection reset", S w))
    (ctr_CopyFileFromContainer E)
    (ctr_Terminate E) (stdout_Write E) (Duration_String E).

(** Induction on a tree, with the hypothesis on every entry of a directory. *)
Fixpoint node_nested_ind (P : node -> Prop)
    (HReg : forall perm size, P (Regular perm size))
    (HDir : forall perm entries readErr,
        Forall (fun x => P (snd x)) entries -> P (Directory perm entries readErr))
    (HSym : forall perm, P (Symlink perm))
    (HSock : forall perm, P (Socket perm))
    (d : node) {struct d} : P d :=
  match d with
  | Regular perm size => HReg perm size
  | Directory perm entries readErr =>
      HDir perm entries readErr
        ((fix all (l : list (string * node)) : Forall (fun x => P (snd x)) l :=
            match l with
            | [] => Forall_nil _
            | x :: l' =>
                Forall_cons x
                  (node_nested_ind P HReg HDir HSym HSock (snd x)) (all l')
            end) entries)
  | Symlink perm => HSym perm
  | Socket perm => HSock perm
  end.

(* ================================================================== *)
(** * Properties of the archiver *)

Lemma Base_Dockerfile : Base "Dockerfile" = "Dockerfile".
Proof. reflexivity. Qed.

Lemma walkDir_Directory fn name perm entries readErr tw :
  walkDir fn name (Directory perm entries readErr) tw =
  match fn name (Some (Directory perm entries readErr)) None tw with
  | (tw1, Some err) => (tw1, Some err)
  | (tw1, None) =>
      match (match readErr with
             | Some err => fn name (Some (Directory perm entries readErr)) (Some err) tw1
             | None => (tw1, None)
             end) with
      | (tw2, Some err) => (tw2, Some err)
      | (tw2, None) => walk_list fn name entries tw2
      end
  end.
Proof.
  simpl.
  destruct (fn name (Some (Directory perm entries readErr)) None tw) as [tw1 [e|]];
    [reflexivity|].
  destruct (match readErr with
            | Some err => fn name (Some (Directory perm entries readErr)) (Some err) tw1
            | None => (tw1, None)
            end) as [tw2 [e|]]; [reflexivity|].
  clear. revert tw2.
  induction entries as [|[n1 d1] es IH]; intros tw2; simpl; [reflexivity|].
  destruct (walkDir fn (Join [name; n1]) d1 tw2) as [tw' [e|]]; [reflexivity|].
  apply IH.
Qed.

Lemma walkDir_leaf fn name d tw :
  (forall perm entries readErr, d <> Directory perm entries readErr) ->
  walkDir fn name d tw =
  match fn name (Some d) None tw with
  | (tw1, Some err) => (tw1, Some err)
  | (tw1, None) => (tw1, None)
  end.
Proof.
  intros Hd. destruct d; simpl;
    try (destruct (fn name _ None tw) as [tw1 [e|]]; reflexivity).
  exfalso. eapply Hd. reflexivity.
Qed.

(** The callback handed an error returns it. *)
Lemma walkFn_error os cp path d err tw :
  walkFn os cp path d (Some err) tw = (tw, Some err).
Proof. reflexivity. Qed.

(** One successful call of the callback: the entry is skipped, or exactly one
    archive entry is added for it. *)
Lemma walkFn_step os cp path info tw tw' :
  walkFn os cp path (Some info) None tw = (tw', None) ->
  ((path = "." \/ Base path = "Dockerfile") /\ tw' = tw) \/
  (path <> "." /\ Base path <> "Dockerfile" /\
   exists e, tw_entries tw' = e :: tw_entries tw /\ entry_of os cp path info e).
Proof.
  unfold walkFn.
  destruct (String.eqb path ".") eqn:Hroot.
  { apply String.eqb_eq in Hroot. intros H; inversion H; subst. left; auto. }
  destruct (String.eqb (Base path) "Dockerfile") eqn:Hdf.
  { apply String.eqb_eq in Hdf. intros H; inversion H; subst. left; auto. }
  apply String.eqb_neq in Hroot. apply String.eqb_neq in Hdf.
  intros H. right. split; [exact Hroot|]. split; [exact Hdf|].
  destruct info as [perm size|perm es re|perm|perm]; simpl in H.
  - (* regular file *)
    unfold WriteHeader in H; simpl in H.
    destruct (negb (tw_pending tw =? 0)%Z); [discriminate|].
    destruct (size <? 0)%Z; [discriminate|].
    destruct (os_Open os (Join [cp; path])) as [f|e] eqn:Hopen; [|discriminate].
    unfold io_Copy, Write in H; simpl in H.
    destruct (Z.of_nat (length (f_data f)) <=? size)%Z; simpl in H;
      [|discriminate].
    destruct (f_readErr f) eqn:Hread; [discriminate|].
    destruct (f_closeErr f); [discriminate|].
    inversion H; subst; clear H. simpl.
    eexists; split; [reflexivity|].
    split; [reflexivity|]. simpl. repeat split.
    exists f. auto.
  - (* directory *)
    unfold WriteHeader in H; simpl in H.
    destruct (negb (tw_pending tw =? 0)%Z); [discriminate|].
    inversion H; subst; clear H. simpl.
    eexists; split; [reflexivity|]. split; [reflexivity|]. simpl. auto.
  - (* symbolic link *)
    destruct (os_Readlink os (Join [cp; path])) as [target|e] eqn:Hlink;
      [|discriminate].
    unfold WriteHeader in H; simpl in H.
    destruct (negb (tw_pending tw =? 0)%Z); [discriminate|].
    inversion H; subst; clear H. simpl.
    eexists; split; [reflexivity|]. split; [reflexivity|]. simpl. auto.
  - (* socket *)
    discriminate.
Qed.

Lemma entry_of_Name os cp path info e :
  entry_of os cp path info e -> Name (hdr e) = path.
Proof. intros [H _]; exact H. Qed.

Lemma find_entry_In n1 es d1 :
  find_entry n1 es = Some d1 -> In (n1, d1) es.
Proof.
  induction es as [|[n d] es IH]; simpl; [discriminate|].
  destruct (String.eqb n n1) eqn:Hn.
  - apply String.eqb_eq in Hn. intros H; inversion H; subst. left; reflexivity.
  - intros H. right. apply IH, H.
Qed.

(** The loop over the entries of a directory, given the property of the
    walk on each of them. *)
Lemma walk_list_adds os cp name es :
  Forall (fun x => forall name tw tw',
            walkDir (walkFn os cp) name (snd x) tw = (tw', None) ->
            walk_adds os cp name (snd x) (tw_entries tw) (tw_entries tw')) es ->
  forall tw tw',
    walk_list (walkFn os cp) name es tw = (tw', None) ->
    exists new,
      tw_entries tw' = new ++ tw_entries tw /\
      (forall e, In e new ->
         Base (Name (hdr e)) <> "Dockerfile" /\ Name (hdr e) <> ".") /\
      (forall n1 d1 p n, find_entry n1 es = Some d1 -> node_at d1 p = Some n ->
         path_below (Join [name; n1]) p <> "." ->
         Base (path_below (Join [name; n1]) p) <> "Dockerfile" ->
         exists e, In e new /\
                   entry_of os cp (path_below (Join [name; n1]) p) n e).
Proof.
  induction 1 as [|[n0 d0] es Hd Hes IH]; intros tw tw' Hw; simpl in Hw.
  - inversion Hw; subst. exists []. split; [reflexivity|].
    split; [intros e []|]. intros n1 d1 p n Hf. discriminate.
  - destruct (walkDir (walkFn os cp) (Join [name; n0]) d0 tw)
      as [tw1 [err|]] eqn:Hfirst; [discriminate|].
    apply Hd in Hfirst. destruct Hfirst as (new1 & E1 & N1 & F1).
    apply IH in Hw. destruct Hw as (new2 & E2 & N2 & F2).
    exists (new2 ++ new1). split.
    { rewrite E2, E1. apply app_assoc. }
    split.
    { intros e He. apply in_app_or in He. destruct He; auto. }
    intros n1 d1 p n Hf Hn Hroot Hdf. simpl in Hf.
    destruct (String.eqb n0 n1) eqn:Hname.
    + apply String.eqb_eq in Hname. inversion Hf; subst.
      destruct (F1 p n Hn Hroot Hdf) as (e & He & Hspec).
      exists e. split; [apply in_or_app; right; exact He|exact Hspec].
    + destruct (F2 n1 d1 p n Hf Hn Hroot Hdf) as (e & He & Hspec).
      exists e. split; [apply in_or_app; left; exact He|exact Hspec].
Qed.

(** A walk that succeeds adds an entry for every entry of the tree it does
    not skip, and none at the reserved name. *)
Lemma walkDir_adds os cp d :
  forall name tw tw',
    walkDir (walkFn os cp) name d tw = (tw', None) ->
    walk_adds os cp name d (tw_entries tw) (tw_entries tw').
Proof.
  induction d as [perm size|perm es re IH|perm|perm] using node_nested_ind;
    intros name tw tw' Hw.
  2:{ (* directory *)
    rewrite walkDir_Directory in Hw.
    destruct (walkFn os cp name (Some (Directory perm es re)) None tw)
      as [tw1 [err|]] eqn:Hself; [discriminate|].
    destruct re as [err|]; [rewrite walkFn_error in Hw; discriminate|].
    apply walkFn_step in Hself.
    apply (walk_list_adds os cp name es IH) in Hw.
    destruct Hw as (new & E & N & F).
    destruct Hself as [[Hskip ->]|(Hroot & Hdf & e & Ee & Hspec)].
    - exists new. split; [exact E|]. split; [exact N|].
      intros p n Hn Hr Hb. destruct p as [|n1 p].
      + simpl in Hr, Hb. unfold path_below in Hr, Hb; simpl in Hr, Hb.
        destruct Hskip; contradiction.
      + simpl in Hn. destruct (find_entry n1 es) as [d1|] eqn:Hf; [|discriminate].
        exact (F n1 d1 p n Hf Hn Hr Hb).
    - exists (new ++ [e]). split.
      { rewrite E, Ee, <- app_assoc. reflexivity. }
      split.
      { intros e' He'. apply in_app_or in He'. destruct He' as [He'|[<-|[]]];
          [auto|]. rewrite (entry_of_Name _ _ _ _ _ Hspec). split; assumption. }
      intros p n Hn Hr Hb. destruct p as [|n1 p].
      + simpl in Hn. inversion Hn; subst. exists e.
        split; [apply in_or_app; right; left; reflexivity|exact Hspec].
      + simpl in Hn. destruct (find_entry n1 es) as [d1|] eqn:Hf; [|discriminate].
        destruct (F n1 d1 p n Hf Hn Hr Hb) as (e' & He' & Hs').
        exists e'. split; [apply in_or_app; left; exact He'|exact Hs']. }
  all: rewrite walkDir_leaf in Hw by (intros; discriminate);
    match type of Hw with
    | context [walkFn ?o ?c ?nm (Some ?d) None ?t] =>
        destruct (walkFn o c nm (Some d) None t) as [tw1 [err|]] eqn:Hself
    end; [discriminate|]; inversion Hw; subst; clear Hw;
    apply walkFn_step in Hself;
    destruct Hself as [[Hskip ->]|(Hroot & Hdf & e & Ee & Hspec)].
  all: try (exists []; split; [reflexivity|]; split; [intros e []|];
            intros p n Hn Hr Hb; destruct p as [|n1 p]; [|discriminate];
            unfold path_below in Hr, Hb; simpl in Hr, Hb;
            destruct Hskip; contradiction).
  all: exists [e]; (split; [rewrite Ee; reflexivity|]);
    (split; [intros e' [<-|[]]; rewrite (entry_of_Name _ _ _ _ _ Hspec);
             split; assumption|]);
    intros p n Hn Hr Hb; destruct p as [|n1 p]; [|discriminate];
    simpl in Hn; inversion Hn; subst; exists e; split; [left; reflexivity|exact Hspec].
Qed.

Lemma entries_at_none name (l : list entry) :
  (forall e, In e l -> Name (hdr e) <> name) -> entries_at name l = [].
Proof.
  induction l as [|e l IH]; intros H; simpl; [reflexivity|].
  destruct (String.eqb (Name (hdr e)) name) eqn:He.
  - apply String.eqb_eq in He. exfalso. apply (H e); [left; reflexivity|exact He].
  - apply IH. intros e' He'. apply H. right; exact He'.
Qed.

(** The shape of every archive [CreateTarContext] returns: the entries of a
    successful walk of the tree, oldest first, then the recipe entry. *)
Lemma CreateTarContext_shape os cp dp a :
  CreateTarContext os cp dp = (Some a, None) ->
  exists root new content,
    os_DirFS os cp = inl root /\
    walk_adds os cp "." root [] new /\
    a = rev new ++ [mkEntry (dockerfileHeader content) content] /\
    ((dp = "" /\ content = bytes dockerfileTemplate) \/
     (dp <> "" /\ os_ReadFile os (resolve_dockerfile cp dp) = inl content)).
Proof.
  unfold CreateTarContext.
  set (chosen := if String.eqb dp "" then _ else _).
  assert (Hchosen : forall content, chosen = inl content ->
            (dp = "" /\ content = bytes dockerfileTemplate) \/
            (dp <> "" /\ os_ReadFile os (resolve_dockerfile cp dp) = inl content)).
  { subst chosen. intros content. destruct (String.eqb dp "") eqn:Hdp.
    - apply String.eqb_eq in Hdp. intros H; inversion H. left; auto.
    - apply String.eqb_neq in Hdp.
      destruct (os_ReadFile os (resolve_dockerfile cp dp)) as [c|e];
        intros H; inversion H; subst. right; auto. }
  destruct chosen as [content|e]; [|discriminate].
  specialize (Hchosen content eq_refl).
  unfold WalkDir, DirFS_Stat.
  destruct (os_DirFS os cp) as [[perm sz|perm es re|perm|perm]|err];
    try (rewrite walkFn_error; discriminate).
  set (root := Directory perm es re).
  destruct (walkDir (walkFn os cp) "." root NewWriter) as [tw1 [e|]] eqn:Hwalk;
    [discriminate|].
  apply walkDir_adds in Hwalk. simpl in Hwalk.
  unfold WriteHeader.
  destruct (negb (tw_pending tw1 =? 0)%Z); [discriminate|].
  cbn [Size dockerfileHeader Flag].
  destruct (Z.of_nat (length content) <? 0)%Z; [discriminate|].
  unfold Write. cbn [tw_pending tw_entries hdr body].
  destruct (Z.of_nat (length content) <=? Z.of_nat (length content))%Z;
    [|discriminate].
  unfold Close. cbn [tw_pending tw_entries].
  destruct (negb (Z.of_nat (length content) - Z.of_nat (length content) =? 0)%Z);
    [discriminate|].
  intros H; inversion H; subst; clear H.
  exists root, (tw_entries tw1), content.
  split; [reflexivity|]. split; [exact Hwalk|]. split; [|exact Hchosen].
  simpl. reflexivity.
Qed.

(** C1, as amended.  Every archive [CreateTarContext] returns consists of the
    entries of the directory walk, none of them at the path Dockerfile,
    followed by one recipe entry at that path, which is thus the only entry
    there.  The content of the recipe entry is the built-in default recipe
    when the override is empty, and otherwise the bytes read from the
    override path: from the path itself when it is absolute, from the path
    joined to the tree path when it is relative.  The recipe of the tree
    itself never reaches the archive through the walk. *)
Theorem CreateTarContext_recipe_entry os contextPath dockerfilePath a :
  CreateTarContext os contextPath dockerfilePath = (Some a, None) ->
  exists walked content,
    a = walked ++ [mkEntry (dockerfileHeader content) content] /\
    (forall e, In e walked -> Name (hdr e) <> "Dockerfile") /\
    entries_at "Dockerfile" a = [mkEntry (dockerfileHeader content) content] /\
    (dockerfilePath = "" -> content = bytes dockerfileTemplate) /\
    (dockerfilePath <> "" -> IsAbs dockerfilePath = true ->
       os_ReadFile os dockerfilePath = inl content) /\
    (dockerfilePath <> "" -> IsAbs dockerfilePath = false ->
       os_ReadFile os (Join [contextPath; dockerfilePath]) = inl content).
Proof.
  intros H. apply CreateTarContext_shape in H.
  destruct H as (root & new & content & _ & (new' & Enew & Hnames & _) & Ea & Hc).
  rewrite app_nil_r in Enew. subst new'.
  assert (Hwalked : forall e, In e (rev new) -> Name (hdr e) <> "Dockerfile").
  { intros e He Hn. apply in_rev in He. apply (proj1 (Hnames e He)).
    rewrite Hn. reflexivity. }
  exists (rev new), content.
  split; [exact Ea|]. split; [exact Hwalked|]. split.
  { rewrite Ea. unfold entries_at. rewrite filter_app.
    fold (entries_at "Dockerfile" (rev new)).
    rewrite (entries_at_none _ _ Hwalked). reflexivity. }
  unfold resolve_dockerfile in Hc.
  destruct Hc as [[Hdp Hcontent]|[Hdp Hread]].
  - split; [intros _; exact Hcontent|]. split; intros Hne; contradiction.
  - split; [intros He; contradiction|].
    split; intros _ Habs; rewrite Habs in Hread; exact Hread.
Qed.

(** C1, witness: the example package with the override custom.Dockerfile,
    relative to the tree. *)
Lemma CreateTarContext_recipe_entry_witness :
  exists a,
    CreateTarContext ex_os "/ctx" "custom.Dockerfile" = (Some a, None) /\
    exists walked content,
      a = walked ++ [mkEntry (dockerfileHeader content) content] /\
      (forall e, In e walked -> Name (hdr e) <> "Dockerfile") /\
      entries_at "Dockerfile" a = [mkEntry (dockerfileHeader content) content] /\
      ("custom.Dockerfile" = "" -> content = bytes dockerfileTemplate) /\
      ("custom.Dockerfile" <> "" -> IsAbs "custom.Dockerfile" = true ->
         os_ReadFile ex_os "custom.Dockerfile" = inl content) /\
      ("custom.Dockerfile" <> "" -> IsAbs "custom.Dockerfile" = false ->
         os_ReadFile ex_os (Join ["/ctx"; "custom.Dockerfile"]) = inl content).
Proof.
  eexists. split.
  - vm_compute. reflexivity.
  - apply (CreateTarContext_recipe_entry ex_os "/ctx" "custom.Dockerfile").
    vm_compute. reflexivity.
Defined.

(** C1, counterexample to the claim as stated.  The claim has the recipe
    entry differ from the content of the tree's own Dockerfile for every
    override; with the override path Dockerfile, relative to the tree, the
    recipe entry is read from that very file. *)
Lemma CreateTarContext_recipe_entry_counterexample :
  ~ (forall os contextPath dockerfilePath a root perm size f,
       CreateTarContext os contextPath dockerfilePath = (Some a, None) ->
       os_DirFS os contextPath = inl root ->
       node_at root ["Dockerfile"] = Some (Regular perm size) ->
       os_Open os (Join [contextPath; "Dockerfile"]) = inl f ->
       forall e, In e (entries_at "Dockerfile" a) -> body e <> f_data f).
Proof.
  intros H.
  refine (H ex_os "/ctx" "Dockerfile" _ ex_tree _ _ _ eq_refl eq_refl eq_refl eq_refl
            (mkEntry (dockerfileHeader (bytes "FROM original:latest"))
                     (bytes "FROM original:latest")) _ eq_refl).
  vm_compute. left. reflexivity.
Qed.

(** C2, as amended.  For every archive [CreateTarContext] returns with an
    empty override and every entry of the tree (regular file, directory or
    link, at any depth) other than the root of the tree and other than the
    entries whose base name is Dockerfile, the archive has an entry at the
    walk path of that entry, of its kind and mode: a directory entry for a
    directory, for a regular file the bytes of the file opened at the tree
    path joined with the walk path, read to the end, and for a link the
    target [os.Readlink] reports, the link not being followed.  An entry of
    the tree whose base name is Dockerfile has no entry, at any depth: the
    only archive entry of that base name is the recipe at the top.  The root
    of the tree, whose walk path is ".", has no entry either: no entry of
    the archive has that name. *)
Theorem CreateTarContext_walk_entries os contextPath a root :
  CreateTarContext os contextPath "" = (Some a, None) ->
  os_DirFS os contextPath = inl root ->
  (forall p n,
     node_at root p = Some n ->
     walk_path p <> "." ->
     Base (walk_path p) <> "Dockerfile" ->
     exists e, In e a /\ entry_of os contextPath (walk_path p) n e) /\
  (forall e, In e a ->
     Base (Name (hdr e)) = "Dockerfile" -> Name (hdr e) = "Dockerfile") /\
  walk_path [] = "." /\
  (forall e, In e a -> Name (hdr e) <> ".") /\
  entries_at "." a = [].
Proof.
  intros H Hroot. apply CreateTarContext_shape in H.
  destruct H as (root' & new & content & Hroot' & (new' & Enew & Hnames & Hall)
                 & Ea & _).
  rewrite Hroot in Hroot'. inversion Hroot'; subst root'.
  rewrite app_nil_r in Enew. subst new'.
  assert (Hdot : forall e, In e a -> Name (hdr e) <> ".").
  { intros e He. rewrite Ea in He. apply in_app_or in He.
    destruct He as [He|[<-|[]]]; [|discriminate].
    apply in_rev in He. exact (proj2 (Hnames e He)). }
  split; [|split; [|split; [reflexivity|split; [exact Hdot|]]]].
  - intros p n Hn Hr Hb.
    destruct (Hall p n Hn Hr Hb) as (e & He & Hspec).
    exists e. split; [|exact Hspec].
    rewrite Ea. apply in_or_app. left. apply in_rev in He. exact He.
  - intros e He Hb. rewrite Ea in He. apply in_app_or in He.
    destruct He as [He|[<-|[]]]; [|reflexivity].
    apply in_rev in He. exfalso. exact (proj1 (Hnames e He) Hb).
  - apply entries_at_none. exact Hdot.
Qed.

(** C2, witness: the nested file subdir/helper.go of the example package. *)
Lemma CreateTarContext_walk_entries_witness :
  exists a,
    CreateTarContext ex_os "/ctx" "" = (Some a, None) /\
    os_DirFS ex_os "/ctx" = inl ex_tree /\
    walk_path ["subdir"; "helper.go"] = "subdir/helper.go" /\
    (forall p n,
       node_at ex_tree p = Some n ->
       walk_path p <> "." ->
       Base (walk_path p) <> "Dockerfile" ->
       exists e, In e a /\ entry_of ex_os "/ctx" (walk_path p) n e) /\
    (forall e, In e a ->
       Base (Name (hdr e)) = "Dockerfile" -> Name (hdr e) = "Dockerfile") /\
    walk_path [] = "." /\
    (forall e, In e a -> Name (hdr e) <> ".") /\
    entries_at "." a = [].
Proof.
  eexists. split; [vm_compute; reflexivity|].
  split; [reflexivity|]. split; [reflexivity|].
  apply (CreateTarContext_walk_entries ex_os "/ctx" _ ex_tree).
  - vm_compute. reflexivity.
  - reflexivity.
Defined.

(** C2, counterexample to the claim as stated.  The claim excepts only a
    top-level Dockerfile; the example package holds subdir/Dockerfile, which
    is not at the top level, and the archive has no entry for it. *)
Lemma CreateTarContext_walk_entries_counterexample :
  ~ (forall os contextPath a root p n,
       CreateTarContext os contextPath "" = (Some a, None) ->
       os_DirFS os contextPath = inl root ->
       node_at root p = Some n ->
       p <> [] -> p <> ["Dockerfile"] ->
       exists e, In e a /\ Name (hdr e) = walk_path p).
Proof.
  intros H.
  destruct (H ex_os "/ctx" _ ex_tree ["subdir"; "Dockerfile"] _
              eq_refl eq_refl eq_refl) as (e & He & Hname);
    [discriminate|discriminate|].
  vm_compute in He, Hname.
  repeat (destruct He as [<-|He]; [discriminate Hname|]).
  exact He.
Qed.

(* ================================================================== *)
(** * Properties of the options *)

Lemma apply_opts_Args calls o :
  Args (apply_opts (map denote calls) o) = Args o ++ flat_map args_of_call calls.
Proof.
  unfold apply_opts. revert o.
  induction calls as [|c calls IH]; intros o; simpl.
  - symmetry. apply app_nil_r.
  - rewrite IH. destruct c; simpl; try reflexivity.
    symmetry. apply app_assoc.
Qed.

Lemma apply_opts_Pattern calls o :
  Pattern (apply_opts (map denote calls) o) =
  fold_left (fun acc c => match c with CallWithPattern p => p | _ => acc end)
            calls (Pattern o).
Proof.
  unfold apply_opts. revert o.
  induction calls as [|c calls IH]; intros o; simpl; [reflexivity|].
  rewrite IH. destruct c; reflexivity.
Qed.

Lemma apply_opts_Timeout calls o :
  forallb (fun c => negb (is_timeout_call c)) calls = true ->
  Timeout (apply_opts (map denote calls) o) = Timeout o.
Proof.
  unfold apply_opts. revert o.
  induction calls as [|c calls IH]; intros o H; simpl in *; [reflexivity|].
  apply andb_true_iff in H. destruct H as [Hc H].
  rewrite (IH _ H). destruct c; simpl in *; try reflexivity. discriminate.
Qed.

Lemma apply_opts_app opts1 opts2 o :
  apply_opts (opts1 ++ opts2) o = apply_opts opts2 (apply_opts opts1 o).
Proof. unfold apply_opts. apply fold_left_app. Qed.

Lemma apply_opts_cons opt opts o :
  apply_opts (opt :: opts) o = apply_opts opts (opt o).
Proof. reflexivity. Qed.

Lemma apply_opts_fields calls o :
  let o' := apply_opts (map denote calls) o in
  PackagePath o' = PackagePath o /\
  Aliases o' = Aliases o ++ flat_map aliases_of_call calls /\
  SockPath o' =
    fold_left (fun acc c => match c with CallWithSockPath p => p | _ => acc end)
              calls (SockPath o) /\
  Timeout o' =
    fold_left (fun acc c => match c with CallWithTimeout t => t | _ => acc end)
              calls (Timeout o) /\
  EnableVarSock o' = EnableVarSock o || varsock_of_calls calls.
Proof.
  cbv zeta. revert o. induction calls as [|c calls IH]; intros o.
  - cbn. rewrite app_nil_r, orb_false_r. auto.
  - cbn [map]. rewrite apply_opts_cons.
    destruct (IH (denote c o)) as (H1 & H2 & H3 & H4 & H5).
    rewrite H1, H2, H3, H4, H5.
    destruct c; cbn; rewrite <- ?app_assoc, ?orb_true_r, ?orb_false_r; auto.
Qed.

(** The timeout the calls select is the default, or that of one of the
    WithTimeout calls. *)
Lemma timeout_of_calls_set calls :
  timeout_of_calls calls = DefaultTimeout \/
  exists t, In (CallWithTimeout t) calls /\ timeout_of_calls calls = t.
Proof.
  unfold timeout_of_calls. generalize DefaultTimeout as acc.
  induction calls as [|c calls IH]; intros acc; simpl; [left; reflexivity|].
  destruct (IH (match c with CallWithTimeout t => t | _ => acc end))
    as [Hsame|(t & Hin & Ht)].
  - rewrite Hsame. destruct c; try (left; reflexivity).
    right. eexists. split; [left; reflexivity|reflexivity].
  - right. exists t. split; [right; exact Hin|exact Ht].
Qed.

(** A context derived by [context.WithTimeout] is not its parent. *)
Lemma WithTimeout_neq ctx : forall t, WithTimeout ctx t <> ctx.
Proof.
  induction ctx as [|parent IH t0]; intros t H; [discriminate|].
  inversion H; subst. exact (IH t0 H1).
Qed.

Lemma run_context_bounded ctx o :
  (0 < Timeout o)%Z -> run_context ctx o = WithTimeout ctx (Timeout o).
Proof.
  intros H. unfold run_context. apply Z.ltb_lt in H. rewrite H. reflexivity.
Qed.

Lemma run_context_unbounded ctx o :
  run_context ctx o = ctx <-> (Timeout o <= 0)%Z.
Proof.
  unfold run_context. destruct (0 <? Timeout o)%Z eqn:Ht.
  - apply Z.ltb_lt in Ht. split; [|lia].
    intros H. exfalso. exact (WithTimeout_neq _ _ H).
  - apply Z.ltb_ge in Ht. tauto.
Qed.

Lemma NewOptions_Some packagePath opts o :
  NewOptions packagePath opts = (Some o, None) ->
  packagePath <> "" /\
  o = apply_opts opts (mkOptions packagePath DefaultPattern [] []
                                 false DefaultSockPath DefaultTimeout).
Proof.
  unfold NewOptions. destruct (String.eqb packagePath "") eqn:Hp; [discriminate|].
  apply String.eqb_neq in Hp. intros H; inversion H. auto.
Qed.

(* ================================================================== *)
(** * Properties of the errors *)

Lemma error_eqb_refl e : error_eqb e e = true.
Proof.
  induction e; simpl; try reflexivity;
    rewrite ?String.eqb_refl, ?IHe; reflexivity.
Qed.

Lemma errors_Is_refl e : errors_Is e e = true.
Proof. destruct e; simpl; rewrite ?String.eqb_refl, ?error_eqb_refl; reflexivity. Qed.

Lemma errors_Is_wrapped_cause e :
  forall r, Unwrap r = Some e -> errors_Is r e = true.
Proof.
  intros r Hr. destruct r; simpl in Hr; try discriminate;
    inversion Hr; subst; simpl; rewrite errors_Is_refl; apply orb_true_r.
Qed.

(* ================================================================== *)
(** * Properties of the orchestrator *)

(** Case analysis on the scrutinee of an innermost [match] of a hypothesis. *)
Ltac destruct_scrutinee H :=
  match type of H with
  | context [match ?X with _ => _ end] =>
      lazymatch X with
      | context [match _ with _ => _ end] => fail
      | _ => destruct X eqn:?
      end
  end.

Ltac monad_unfold H :=
  cbv beta iota zeta delta
    [defer bind ret call write_stdout get_ctx_Err cancel nil_dereference fst snd app] in H.

Ltac monad_step H :=
  destruct_scrutinee H; cbn beta iota zeta delta [fst snd app] in H;
  try discriminate H.

(** How [CreateContainer] ends: with an error and without a call into the
    engine, or after one call to [GenericContainer], by its outcome. *)
Lemma CreateContainer_cases {World : Type} (E : Engine World) os ctx cfg
    w tr out w' tr' :
  CreateContainer E os ctx cfg (w, tr) = (out, (w', tr')) ->
  (w' = w /\ tr' = tr /\ exists e, out = Returns (None, Some e)) \/
  (exists req r,
     GenericContainer E ctx req w = (r, w') /\
     tr' = tr ++ [EvGenericContainer ctx req r] /\
     ((exists v, r = Panics v /\ out = Panics v) \/
      (exists e, r = Returns (inr e) /\
         out = Returns (None, Some (Errorf_w "failed to create container: " e))) \/
      (exists c, r = Returns (inl c) /\
         out = Returns (Some (mkTestContainer (Some c)), None)))).
Proof.
  unfold CreateContainer. intros H.
  repeat match type of H with
         | context [match ?X with _ => _ end] =>
             lazymatch X with
             | context [match _ with _ => _ end] => fail
             | context [GenericContainer] => fail
             | _ => destruct X eqn:?
             end
         end;
    monad_unfold H;
    try (inversion H; subst; left; eauto; fail);
    right;
    match type of H with
    | context [GenericContainer E ctx ?req w] =>
        exists req; destruct (GenericContainer E ctx req w) as [r w1] eqn:Hgc;
        exists r; destruct r as [[c|e]|v];
        inversion H; subst; (split; [reflexivity|]); (split; [reflexivity|]); eauto 6
    end.
Qed.

(** How the reading of the output ends: nothing was read and nothing is
    written, or the bytes read are written once, and the error is that of
    the write when it failed and that of the reader otherwise. *)
Lemma ReadAll_TeeReader_cases {World : Type} (E : Engine World) rd w tr out w' tr' :
  ReadAll_TeeReader E rd (w, tr) = (out, (w', tr')) ->
  (r_data rd = [] /\ w' = w /\ tr' = tr /\ out = Returns (r_data rd, r_err rd)) \/
  (r_data rd <> [] /\
   exists wr, stdout_Write E (r_data rd) w = (wr, w') /\
     tr' = tr ++ [EvStdout (r_data rd) wr] /\
     ((exists err, wr = Some err /\ out = Returns (r_data rd, Some err)) \/
      (wr = None /\ out = Returns (r_data rd, r_err rd)))).
Proof.
  unfold ReadAll_TeeReader, bind, write_stdout, ret. intros H.
  destruct (r_data rd) as [|b l] eqn:Hd.
  - inversion H; subst. left. auto.
  - right. split; [discriminate|]. simpl in H.
    destruct (stdout_Write E (b :: l) w) as [wr w1] eqn:Hw.
    exists wr. destruct wr as [err|]; inversion H; subst;
      (split; [reflexivity|]); (split; [reflexivity|]); eauto.
Qed.

Lemma if_same {A : Type} (b : bool) (x : A) : (if b then x else x) = x.
Proof. destruct b; reflexivity. Qed.

(** The case analysis of a run: unfold [Run] in [H], then split on the
    outcome of every call, with [CreateContainer_cases] for the creation of
    the container. *)
Ltac run_unfold H :=
  cbv beta iota zeta delta
    [Run defer bind ret call write_stdout get_ctx_Err cancel nil_dereference
     CreateNetwork Terminate execTestWithStreaming
     CopyCoverage CopyFileFromContainer fst snd app] in H;
  rewrite ?if_same in H.

Ltac run_step H :=
  match type of H with
  | context [CreateContainer ?E ?os ?ctx ?cfg ?s] =>
      let oc := fresh "oc" in let wc := fresh "wc" in let trc := fresh "trc" in
      let Hcc := fresh "Hcc" in
      destruct (CreateContainer E os ctx cfg s) as [oc [wc trc]] eqn:Hcc;
      apply CreateContainer_cases in Hcc;
      destruct Hcc as [(-> & -> & ? & ->)
                      |(? & ? & ? & -> & [(? & -> & ->)|[(? & -> & ->)|(? & -> & ->)]])]
  | context [ReadAll_TeeReader ?E ?rd ?s] =>
      let ot := fresh "ot" in let wt := fresh "wt" in let trt := fresh "trt" in
      let Htee := fresh "Htee" in
      destruct (ReadAll_TeeReader E rd s) as [ot [wt trt]] eqn:Htee;
      apply ReadAll_TeeReader_cases in Htee;
      destruct Htee as [(? & -> & -> & ->)
                       |(? & ? & ? & -> & [(? & -> & ->)|(-> & ->)])]
  | _ => destruct_scrutinee H
  end;
  cbn beta iota zeta delta [fst snd app ctr] in H;
  try discriminate H.

Lemma Run_under_ctx {World : Type} (E : Engine World) os ctx packagePath opts
    o w out w' tr :
  NewOptions packagePath opts = (Some o, None) ->
  Run E os ctx packagePath opts (w, []) = (out, (w', tr)) ->
  Forall (under_ctx (run_context ctx o)) tr.
Proof.
  intros Ho H. run_unfold H. rewrite Ho in H.
  repeat run_step H.
  all: inversion H; subst; clear H.
  all: repeat constructor.
Qed.

(** Every error [Run] returns comes without a result and names what failed:
    the options, or one of the three phases, wrapped by [wrapTimeoutError]
    on the value of [ctx.Err()] in some world of the run. *)
Lemma Run_error_phase {World : Type} (E : Engine World) os ctx packagePath opts
    s r e s' :
  Run E os ctx packagePath opts s = (Returns (r, Some e), s') ->
  r = None /\
  ((exists o' e0, NewOptions packagePath opts = (o', Some e0) /\
                  e = Errorf_w "invalid options: " e0) \/
   (exists o wx cause phase,
      NewOptions packagePath opts = (Some o, None) /\
      In phase run_phases /\
      Some e = wrapTimeoutError (ctx_Err E (run_context ctx o) wx)
                                (Some cause) phase)).
Proof.
  intros H. unfold Run in H.
  destruct (NewOptions packagePath opts) as [[o|] [e0|]] eqn:Ho;
    run_unfold H;
    try (inversion H; subst; split; [reflexivity|]; left; eauto; fail);
    [|discriminate H].
  destruct s as [w tr].
  repeat run_step H.
  all: inversion H; subst; clear H.
  all: split; [reflexivity|]; right; exists o.
  all: match goal with
       | |- context [if errors_Is_opt (ctx_Err _ _ ?wx) _
                     then Some (TimeoutError ?ph ?c) else _] =>
           exists wx, c, ph; split; [reflexivity|]; split;
           [simpl; tauto|reflexivity]
       end.
Qed.

(** The three phases of [Run], each failing.  The error [Run] returns is made
    by [wrapTimeoutError] from the error the phase returned and from
    [ctx.Err()] read in the world the phase left behind: after the failed
    call, and before any cleanup. *)
Lemma Run_network_phase {World : Type} (E : Engine World) os ctx packagePath opts
    o w cause w1 :
  NewOptions packagePath opts = (Some o, None) ->
  network_New E (run_context ctx o) w = (Returns (inr cause), w1) ->
  Run E os ctx packagePath opts (w, []) =
  (Returns (None,
            wrapTimeoutError (ctx_Err E (run_context ctx o) w1)
              (Some (Errorf_w "failed to create docker network: " cause))
              "create network"),
   (w1, [EvNetworkNew (run_context ctx o) (Returns (inr cause))])).
Proof.
  intros Ho Hnew. unfold Run. rewrite Ho.
  cbv beta iota zeta delta
    [defer bind ret call get_ctx_Err cancel CreateNetwork].
  cbn [fst snd app]. rewrite Hnew, if_same. reflexivity.
Qed.

Lemma Run_container_phase {World : Type} (E : Engine World) os ctx packagePath
    opts o w net w1 tc e w2 tr2 r2 w3 :
  NewOptions packagePath opts = (Some o, None) ->
  network_New E (run_context ctx o) w = (Returns (inl net), w1) ->
  CreateContainer E os (run_context ctx o) (run_container_config o net)
    (w1, [EvNetworkNew (run_context ctx o) (Returns (inl net))])
  = (Returns (tc, Some e), (w2, tr2)) ->
  network_Remove E net (run_context ctx o) w2 = (Returns r2, w3) ->
  Run E os ctx packagePath opts (w, []) =
  (Returns (None,
            wrapTimeoutError (ctx_Err E (run_context ctx o) w2) (Some e)
              "create container"),
   (w3, tr2 ++ [EvNetworkRemove net (run_context ctx o) (Returns r2)])).
Proof.
  intros Ho Hnew Hcc Hrm. unfold Run. rewrite Ho.
  cbv beta iota zeta delta
    [defer bind ret call get_ctx_Err cancel CreateNetwork net_Name].
  cbn [fst snd app]. rewrite Hnew. unfold run_container_config in Hcc.
  cbn [fst snd app]. rewrite Hcc.
  cbn [fst snd app]. rewrite Hrm, if_same.
  destruct r2; reflexivity.
Qed.

Lemma Run_exec_phase {World : Type} (E : Engine World) os ctx packagePath opts
    o w net w1 c w2 tr2 res e w3 tr3 r1 w4 tr4 r2 w5 :
  NewOptions packagePath opts = (Some o, None) ->
  network_New E (run_context ctx o) w = (Returns (inl net), w1) ->
  CreateContainer E os (run_context ctx o) (run_container_config o net)
    (w1, [EvNetworkNew (run_context ctx o) (Returns (inl net))])
  = (Returns (Some c, None), (w2, tr2)) ->
  execTestWithStreaming E (run_context ctx o) c o (w2, tr2)
  = (Returns (res, Some e), (w3, tr3)) ->
  Terminate E c (run_context ctx o) (w3, tr3) = (Returns r1, (w4, tr4)) ->
  network_Remove E net (run_context ctx o) w4 = (Returns r2, w5) ->
  Run E os ctx packagePath opts (w, []) =
  (Returns (None,
            wrapTimeoutError (ctx_Err E (run_context ctx o) w3) (Some e)
              "execute tests"),
   (w5, tr4 ++ [EvNetworkRemove net (run_context ctx o) (Returns r2)])).
Proof.
  intros Ho Hnew Hcc Hex Htm Hrm. unfold Run. rewrite Ho.
  cbv beta iota zeta delta
    [defer bind ret call get_ctx_Err cancel CreateNetwork net_Name].
  cbn [fst snd app]. rewrite Hnew. unfold run_container_config in Hcc.
  cbn [fst snd app]. rewrite Hcc.
  cbn [fst snd app]. rewrite Hex.
  cbn [fst snd app]. rewrite Htm.
  cbn [fst snd app]. rewrite Hrm, if_same.
  destruct r2; reflexivity.
Qed.

(** C4, as amended.  For an error [e] of a phase and the value [ctxErr] of
    [ctx.Err()]: when [ctxErr] is the deadline error, [wrapTimeoutError]
    gives a [TimeoutError] of that phase whose message is
    "timeout during <phase>: <e>" and which unwraps to [e]; when the context
    is live ([ctxErr] is nil), it gives a plain wrapped error with message
    "failed to <phase>: <e>" that unwraps to [e]; a nil error stays nil; and
    every error [Run] returns is the error of the options or is made by
    [wrapTimeoutError] for one of the phases "create network",
    "create container" and "execute tests".  In each of the three phases,
    the error [Run] returns when the phase fails is made by
    [wrapTimeoutError] from the error the phase returned and from
    [ctx.Err()] of the context of the run, read in the world the failed
    phase left behind: after the failing call, not before it, and before
    the cleanup calls. *)
Theorem wrapTimeoutError_classifies :
  (forall ctxErr e phase,
     errors_Is_opt ctxErr deadlineExceededError = true ->
     exists r, wrapTimeoutError ctxErr (Some e) phase = Some r /\
               errors_As_TimeoutError r = Some (phase, e) /\
               Error r = "timeout during " ^^ phase ^^ ": " ^^ Error e /\
               Unwrap r = Some e /\ errors_Is r e = true) /\
  (forall e phase,
     exists r, wrapTimeoutError None (Some e) phase = Some r /\
               r = wrapError ("failed to " ^^ phase ^^ ": " ^^ Error e) e /\
               Error r = "failed to " ^^ phase ^^ ": " ^^ Error e /\
               Unwrap r = Some e /\ errors_Is r e = true) /\
  (forall ctxErr phase, wrapTimeoutError ctxErr None phase = None) /\
  (forall (World : Type) (E : Engine World) os ctx packagePath opts s r e s',
     Run E os ctx packagePath opts s = (Returns (r, Some e), s') ->
     (exists o' e0, NewOptions packagePath opts = (o', Some e0) /\
                    e = Errorf_w "invalid options: " e0) \/
     (exists o wx cause phase,
        NewOptions packagePath opts = (Some o, None) /\
        In phase ["create network"; "create container"; "execute tests"] /\
        Some e = wrapTimeoutError (ctx_Err E (run_context ctx o) wx)
                                  (Some cause) phase)) /\
  (forall (World : Type) (E : Engine World) os ctx packagePath opts o w cause w1,
     NewOptions packagePath opts = (Some o, None) ->
     network_New E (run_context ctx o) w = (Returns (inr cause), w1) ->
     Run E os ctx packagePath opts (w, []) =
     (Returns (None,
               wrapTimeoutError (ctx_Err E (run_context ctx o) w1)
                 (Some (Errorf_w "failed to create docker network: " cause))
                 "create network"),
      (w1, [EvNetworkNew (run_context ctx o) (Returns (inr cause))]))) /\
  (forall (World : Type) (E : Engine World) os ctx packagePath opts o w net w1
          tc e w2 tr2 r2 w3,
     NewOptions packagePath opts = (Some o, None) ->
     network_New E (run_context ctx o) w = (Returns (inl net), w1) ->
     CreateContainer E os (run_context ctx o) (run_container_config o net)
       (w1, [EvNetworkNew (run_context ctx o) (Returns (inl net))])
     = (Returns (tc, Some e), (w2, tr2)) ->
     network_Remove E net (run_context ctx o) w2 = (Returns r2, w3) ->
     Run E os ctx packagePath opts (w, []) =
     (Returns (None,
               wrapTimeoutError (ctx_Err E (run_context ctx o) w2) (Some e)
                 "create container"),
      (w3, tr2 ++ [EvNetworkRemove net (run_context ctx o) (Returns r2)]))) /\
  (forall (World : Type) (E : Engine World) os ctx packagePath opts o w net w1
          c w2 tr2 res e w3 tr3 r1 w4 tr4 r2 w5,
     NewOptions packagePath opts = (Some o, None) ->
     network_New E (run_context ctx o) w = (Returns (inl net), w1) ->
     CreateContainer E os (run_context ctx o) (run_container_config o net)
       (w1, [EvNetworkNew (run_context ctx o) (Returns (inl net))])
     = (Returns (Some c, None), (w2, tr2)) ->
     execTestWithStreaming E (run_context ctx o) c o (w2, tr2)
     = (Returns (res, Some e), (w3, tr3)) ->
     Terminate E c (run_context ctx o) (w3, tr3) = (Returns r1, (w4, tr4)) ->
     network_Remove E net (run_context ctx o) w4 = (Returns r2, w5) ->
     Run E os ctx packagePath opts (w, []) =
     (Returns (None,
               wrapTimeoutError (ctx_Err E (run_context ctx o) w3) (Some e)
                 "execute tests"),
      (w5, tr4 ++ [EvNetworkRemove net (run_context ctx o) (Returns r2)]))).
Proof.
  split; [|split; [|split; [|split; [|split; [|split]]]]].
  5: exact @Run_network_phase.
  5: exact @Run_container_phase.
  5: exact @Run_exec_phase.
  - intros ctxErr e phase Hd. unfold wrapTimeoutError. rewrite Hd.
    eexists. split; [reflexivity|]. simpl.
    rewrite errors_Is_refl, orb_true_r. auto.
  - intros e phase. unfold wrapTimeoutError. simpl.
    eexists. split; [reflexivity|]. unfold Errorf_w. simpl.
    rewrite errors_Is_refl, orb_true_r.
    assert (Hassoc : forall a b c, (a ^^ b) ^^ c = a ^^ b ^^ c).
    { intros a b c. induction a; simpl; [reflexivity|]. rewrite IHa; reflexivity. }
    change ("failed to " ^^ phase ^^ ": ") with (("failed to " ^^ phase) ^^ ": ").
    rewrite !Hassoc. auto.
  - reflexivity.
  - intros World E os ctx packagePath opts s r e s' H.
    apply Run_error_phase in H. destruct H as [_ H]. exact H.
Qed.

(** C4, witness: a run whose deadline has passed when the container is to be
    created; the error is the timeout of the phase "create container", made
    from the error of [CreateContainer] and from the state of the context
    after the failed call, before the network is released. *)
Lemma wrapTimeoutError_classifies_witness :
  let E := ex_engine 1 0 None in
  let o := mkOptions "/ctx" DefaultPattern [] [] false DefaultSockPath 5%Z in
  let net := mkTcNetwork 1 "net-1" in
  let cause := Errorf_w "failed to create container: " deadlineExceededError in
  let e := TimeoutError "create container" cause in
  errors_Is_opt (Some deadlineExceededError) deadlineExceededError = true /\
  NewOptions "/ctx" [WithTimeoutOpt 5%Z] = (Some o, None) /\
  network_New E (run_context Background o) 0 = (Returns (inl net), 1) /\
  network_Remove E net (run_context Background o) 2
  = (Returns (Some deadlineExceededError), 3) /\
  ctx_Err E (run_context Background o) 2 = Some deadlineExceededError /\
  Error e = "timeout during create container: failed to create container: context deadline exceeded" /\
  exists tr2,
    CreateContainer E ex_os (run_context Background o) (run_container_config o net)
      (1, [EvNetworkNew (run_context Background o) (Returns (inl net))])
    = (Returns (None, Some cause), (2, tr2)) /\
    Run E ex_os Background "/ctx" [WithTimeoutOpt 5%Z] (0, [])
    = (Returns (None,
                wrapTimeoutError (ctx_Err E (run_context Background o) 2)
                  (Some cause) "create container"),
       (3, tr2 ++ [EvNetworkRemove net (run_context Background o)
                     (Returns (Some deadlineExceededError))])) /\
    wrapTimeoutError (ctx_Err E (run_context Background o) 2) (Some cause)
      "create container" = Some e.
Proof.
  intros E o net cause e.
  destruct wrapTimeoutError_classifies as (Htimeout & _ & _ & _ & _ & Hphase & _).
  split; [reflexivity|]. split; [reflexivity|]. split; [reflexivity|].
  split; [reflexivity|]. split; [reflexivity|]. split.
  - destruct (Htimeout (Some deadlineExceededError) cause "create container" eq_refl)
      as (r & Hr & _ & Hmsg & _).
    inversion Hr; subst r. exact Hmsg.
  - eexists. split; [vm_compute; reflexivity|]. split; [|reflexivity].
    apply (Hphase nat E ex_os Background "/ctx" [WithTimeoutOpt 5%Z] o 0%nat net
             1%nat None cause 2%nat).
    + reflexivity.
    + reflexivity.
    + vm_compute. reflexivity.
    + reflexivity.
Defined.

(** C4, counterexample to the claim as stated.  The claim gives the timeout
    error the message "timeout during <phase>"; the message also carries the
    cause. *)
Lemma wrapTimeoutError_classifies_counterexample :
  ~ (forall e phase r,
       wrapTimeoutError (Some deadlineExceededError) (Some e) phase = Some r ->
       Error r = "timeout during " ^^ phase).
Proof.
  intros H.
  specialize (H (errorString "context deadline exceeded") "create container"
                _ eq_refl).
  discriminate H.
Qed.

(** Whatever error the engine reports for the copy, on a live container
    [CopyFileFromContainer] returns nil bytes and a nil error. *)
Lemma CopyFileFromContainer_engine_error {World : Type} (E : Engine World)
    h ctx path w tr err w' :
  ctr_CopyFileFromContainer E h ctx path w = (Returns (inr err), w') ->
  CopyFileFromContainer E (mkTestContainer (Some h)) ctx path (w, tr) =
  (Returns (None, None), (w', tr ++ [EvCopyFile h ctx path (Returns (inr err))])).
Proof.
  intros H. unfold CopyFileFromContainer, bind, call, ret. simpl.
  rewrite H. reflexivity.
Qed.

(** C3, the code at the failing input.  The container is live and the engine
    fails the copy because the context has expired, which is not a missing
    file: [CopyFileFromContainer] and [CopyCoverage] still return nil bytes
    and a nil error, as they do for a missing file. *)
Theorem CopyFileFromContainer_swallows_failure :
  let expired := WithTimeout Background 5%Z in
  let live := mkTestContainer (Some 7) in
  CopyFileFromContainer (ex_engine 0 0 None) live expired "/tmp/coverage.txt" (0, [])
  = (Returns (None, None),
     (1, [EvCopyFile 7 expired "/tmp/coverage.txt"
            (Returns (inr deadlineExceededError))])) /\
  CopyCoverage (ex_engine 0 0 None) live expired (0, [])
  = (Returns (None, None),
     (1, [EvCopyFile 7 expired "/tmp/coverage.txt"
            (Returns (inr deadlineExceededError))])) /\
  fst (CopyFileFromContainer (ex_engine ex_never 0 None) live Background
         "/nonexistent/file.txt" (0, []))
  = Returns (None, None).
Proof. repeat split. Qed.

(** C8.  On a session whose handle is nil, [execTestWithStreaming],
    [ExecTest], [CopyFileFromContainer] and [CopyCoverage] return the error
    "container is nil" and leave the world and the trace as they were: no
    call into the engine is made; [Terminate] returns nil and makes no call
    either, however often it is called.  On a live handle none of the
    errors of these functions is that error. *)
Theorem nil_handle_fails_fast {World : Type} (E : Engine World)
    (ctx : context) (s : World * list event) :
  let nilc := mkTestContainer None in
  let nil_error := errorString "container is nil" in
  (forall options,
     execTestWithStreaming E ctx nilc options s = (Returns (None, Some nil_error), s)) /\
  (forall cfg, ExecTest E nilc ctx cfg s = (Returns (None, Some nil_error), s)) /\
  (forall path,
     CopyFileFromContainer E nilc ctx path s = (Returns (None, Some nil_error), s)) /\
  CopyCoverage E nilc ctx s = (Returns (None, Some nil_error), s) /\
  Terminate E nilc ctx s = (Returns None, s) /\
  (_ <- Terminate E nilc ctx ;; Terminate E nilc ctx) s = (Returns None, s) /\
  Error nil_error = "container is nil" /\
  (forall h options r e s',
     execTestWithStreaming E ctx (mkTestContainer (Some h)) options s
     = (Returns (r, Some e), s') -> e <> nil_error) /\
  (forall h path r e s',
     CopyFileFromContainer E (mkTestContainer (Some h)) ctx path s
     = (Returns (r, Some e), s') -> e <> nil_error).
Proof.
  intros nilc nil_error. repeat (split; [reflexivity|]). split.
  - intros h options r e s' H. destruct s as [w tr].
    cbv beta iota zeta delta
      [execTestWithStreaming bind ret call write_stdout get_ctx_Err ctr fst snd] in H.
    repeat (destruct_scrutinee H; cbn beta iota zeta delta [fst snd] in H;
            try discriminate H).
    all: unfold wrapTimeoutError in H;
      match type of H with
      | context [if ?b then _ else _] => destruct b
      end; inversion H; subst; discriminate.
  - intros h path r e s' H. destruct s as [w tr].
    cbv beta iota zeta delta
      [CopyFileFromContainer bind ret call ctr fst snd] in H.
    repeat (destruct_scrutinee H; cbn beta iota zeta delta [fst snd] in H;
            try discriminate H).
    all: inversion H; subst; clear H; discriminate.
Qed.

(** C8, witness: a live session whose command cannot be started. *)
Lemma nil_handle_fails_fast_witness :
  let E := ex_engine 0 0 None in
  let ctx := WithTimeout Background 5%Z in
  let options := mkOptions "/ctx" DefaultPattern [] [] false DefaultSockPath 5%Z in
  let e := TimeoutError "execute test command" deadlineExceededError in
  let s' := (1, [EvExec 7 ctx (test_command options)
                   (Returns (inr deadlineExceededError))]) in
  execTestWithStreaming E ctx (mkTestContainer (Some 7)) options (0, [])
  = (Returns (None, Some e), s') /\
  e <> errorString "container is nil".
Proof.
  intros E ctx options e s'. split.
  - reflexivity.
  - destruct (nil_handle_fails_fast E ctx (0, []))
      as (_ & _ & _ & _ & _ & _ & _ & Hexec & _).
    apply (Hexec 7 options None e s'). reflexivity.
Defined.

(** Every test command a run executes is the argv built from its options. *)
Lemma Run_exec_cmd {World : Type} (E : Engine World) os ctx packagePath opts
    o w out w' tr :
  NewOptions packagePath opts = (Some o, None) ->
  Run E os ctx packagePath opts (w, []) = (out, (w', tr)) ->
  forall c ctx' cmd r, In (EvExec c ctx' cmd r) tr -> cmd = test_command o.
Proof.
  intros Ho H. run_unfold H. rewrite Ho in H.
  repeat run_step H.
  all: inversion H; subst; clear H.
  all: intros c' ctx' cmd r' HIn; simpl in HIn.
  all: repeat (destruct HIn as [HIn|HIn]; [try discriminate HIn|]).
  all: try contradiction.
  all: inversion HIn; reflexivity.
Qed.

Lemma CreateContainer_with_teardown {World : Type} (E : Engine World) os
    terminate remove :
  CreateContainer (with_teardown E terminate remove) os = CreateContainer E os.
Proof. reflexivity. Qed.

Lemma ReadAll_TeeReader_with_teardown {World : Type} (E : Engine World)
    terminate remove :
  ReadAll_TeeReader (with_teardown E terminate remove) = ReadAll_TeeReader E.
Proof. reflexivity. Qed.

Ltac goal_scrutinee :=
  match goal with
  | |- context [match ?X with _ => _ end] =>
      lazymatch X with
      | context [match _ with _ => _ end] => fail
      | _ => destruct X eqn:?
      end
  end.

(** The value [Run] returns does not depend on how the two teardown calls
    end, as long as they return. *)
Lemma Run_teardown_irrelevant {World : Type} (E : Engine World) os ctx
    packagePath opts s terminate remove terminate' remove' :
  fst (Run (with_teardown E terminate remove) os ctx packagePath opts s) =
  fst (Run (with_teardown E terminate' remove') os ctx packagePath opts s).
Proof.
  destruct s as [w tr].
  cbv beta iota zeta delta
    [Run defer bind ret call write_stdout get_ctx_Err cancel nil_dereference
     CreateNetwork Terminate execTestWithStreaming
     CopyCoverage CopyFileFromContainer].
  cbn [fst snd].
  rewrite !CreateContainer_with_teardown, ?ReadAll_TeeReader_with_teardown.
  cbn [with_teardown ctx_Err network_New network_Remove ctr_Exec
       ctr_CopyFileFromContainer ctr_Terminate].
  destruct (NewOptions packagePath opts) as [[o|] [e0|]]; try reflexivity.
  rewrite ?if_same.
  repeat (goal_scrutinee; cbn beta iota zeta delta [fst snd];
          try reflexivity).
Qed.

(** Once the container has been created, the trace of the run ends with the
    termination of the container followed by the release of the network. *)
Lemma Run_cleanup_suffix {World : Type} (E : Engine World) os ctx packagePath
    opts w out w' tr ctx' req c :
  Run E os ctx packagePath opts (w, []) = (out, (w', tr)) ->
  In (EvGenericContainer ctx' req (Returns (inl c))) tr ->
  exists pre net r1 r2,
    tr = pre ++ [EvTerminate c ctx' r1; EvNetworkRemove net ctx' r2] /\
    In (EvNetworkNew ctx' (Returns (inl net))) pre /\
    forallb (fun ev => negb (is_cleanup ev)) pre = true.
Proof.
  intros H HIn. unfold Run in H.
  destruct (NewOptions packagePath opts) as [[o|] [e0|]] eqn:Ho;
    run_unfold H; try (inversion H; subst; contradiction).
  repeat run_step H.
  all: injection H as Hout Hw Htr; subst out w'.
  all: rewrite <- Htr in HIn; simpl in HIn.
  all: repeat (destruct HIn as [HIn|HIn]; [try discriminate HIn|]).
  all: try contradiction.
  all: inversion HIn; subst ctx' req c; clear HIn.
  all: exists (removelast (removelast tr)); rewrite <- Htr; simpl.
  all: do 3 eexists; split; [reflexivity|]; split; [left; reflexivity|reflexivity].
Qed.





(** With a timeout above zero, every cleanup call of a run is made under the
    context derived from the timeout, never under the context of the
    caller. *)
Lemma Run_cleanup_context {World : Type} (E : Engine World) os ctx packagePath
    opts o w out w' tr :
  NewOptions packagePath opts = (Some o, None) ->
  (0 < Timeout o)%Z ->
  Run E os ctx packagePath opts (w, []) = (out, (w', tr)) ->
  Forall (fun ev => is_cleanup ev = true ->
                    event_ctx ev = Some (WithTimeout ctx (Timeout o))) tr.
Proof.
  intros Ho Ht H.
  pose proof (Run_under_ctx E os ctx packagePath opts o w out w' tr Ho H) as Hu.
  unfold run_context in Hu. apply Z.ltb_lt in Ht. rewrite Ht in Hu.
  eapply Forall_impl; [|exact Hu].
  intros ev Hev Hcl. unfold under_ctx in Hev.
  destruct ev; simpl in *; try discriminate Hcl; subst; reflexivity.
Qed.

(** C5, the code at the failing input.  The caller passes the background
    context and a timeout; the deadline passes after the network has been
    created, while the container is being created.  [Run] reports the
    timeout of that phase; the one cleanup registered, the release of the
    network, is called with the context derived from the timeout (not with
    the context of the caller), finds it expired, and fails: the network is
    not released.  In the world of that call (two calls made) the context of
    the caller is live, and the release under it succeeds. *)
Theorem Run_cleanup_under_expired_context :
  let run := Run (ex_engine 1 0 None) ex_os Background "/ctx"
                 [WithTimeoutOpt 5%Z] (0, []) in
  fst run = Returns (None, Some (TimeoutError "create container"
              (Errorf_w "failed to create container: " deadlineExceededError))) /\
  filter is_cleanup (snd (snd run))
  = [EvNetworkRemove (mkTcNetwork 1 "net-1") (WithTimeout Background 5%Z)
       (Returns (Some deadlineExceededError))] /\
  ctx_Err (ex_engine 1 0 None) (WithTimeout Background 5%Z) 2
  = Some deadlineExceededError /\
  ctx_Err (ex_engine 1 0 None) Background 2 = None /\
  fst (network_Remove (ex_engine 1 0 None) (mkTcNetwork 1 "net-1") Background 2)
  = Returns None.
Proof. vm_compute. repeat split. Qed.

(** C6.  On every way out of [Run] after the container has been created
    (return of a result, return of an error, panic), the trace ends with the
    termination of that container followed by the release of the network
    created before it, and no cleanup call comes earlier: the container is
    terminated strictly before the network is released.  The value [Run]
    returns is the same however the two cleanup calls end, with an error or
    without: a failed cleanup does not replace the result or the error of
    the run. *)
Theorem Run_cleanup_order {World : Type} (E : Engine World) os ctx
    packagePath opts w :
  (forall out w' tr ctx' req c,
     Run E os ctx packagePath opts (w, []) = (out, (w', tr)) ->
     In (EvGenericContainer ctx' req (Returns (inl c))) tr ->
     exists pre net r1 r2,
       tr = pre ++ [EvTerminate c ctx' r1; EvNetworkRemove net ctx' r2] /\
       In (EvNetworkNew ctx' (Returns (inl net))) pre /\
       forallb (fun ev => negb (is_cleanup ev)) pre = true) /\
  (forall terminate remove terminate' remove',
     fst (Run (with_teardown E terminate remove) os ctx packagePath opts (w, [])) =
     fst (Run (with_teardown E terminate' remove') os ctx packagePath opts (w, []))).
Proof.
  split.
  - intros out w' tr ctx' req c H HIn.
    exact (Run_cleanup_suffix E os ctx packagePath opts w out w' tr ctx' req c
             H HIn).
  - intros. apply Run_teardown_irrelevant.
Qed.

(** C6, witness: a run of the example package whose tests fail. *)
Lemma Run_cleanup_order_witness :
  exists out w' tr req,
    Run (ex_engine ex_never 1 None) ex_os Background "/ctx" [] (0, [])
    = (out, (w', tr)) /\
    In (EvGenericContainer (WithTimeout Background DefaultTimeout) req
          (Returns (inl 7))) tr /\
    exists pre net r1 r2,
      tr = pre ++ [EvTerminate 7 (WithTimeout Background DefaultTimeout) r1;
                   EvNetworkRemove net (WithTimeout Background DefaultTimeout) r2] /\
      In (EvNetworkNew (WithTimeout Background DefaultTimeout)
            (Returns (inl net))) pre /\
      forallb (fun ev => negb (is_cleanup ev)) pre = true.
Proof.
  do 4 eexists. split; [vm_compute; reflexivity|].
  split; [right; left; reflexivity|].
  eapply (proj1 (Run_cleanup_order (ex_engine ex_never 1 None) ex_os Background
                   "/ctx" [] 0)).
  - vm_compute. reflexivity.
  - right; left; reflexivity.
Defined.

(** C9.  Every test command a run executes has the argv
    go test -coverprofile=/tmp/coverage.txt, then the pattern, then the
    extra arguments: the pattern is that of the last WithPattern call, or
    "./..." when there is none, and the extra arguments are those of the
    WithArgs calls, one call after the other in the order of the calls. *)
Theorem Run_test_command {World : Type} (E : Engine World) os ctx packagePath
    calls w out w' tr :
  Run E os ctx packagePath (map denote calls) (w, []) = (out, (w', tr)) ->
  (forall c ctx' cmd r,
     In (EvExec c ctx' cmd r) tr ->
     cmd = ["go"; "test"; "-coverprofile=/tmp/coverage.txt"; pattern_of_calls calls]
           ++ flat_map args_of_call calls) /\
  (forallb (fun c => match c with CallWithPattern _ => false | _ => true end)
           calls = true ->
   pattern_of_calls calls = "./...").
Proof.
  intros H. split.
  - intros c ctx' cmd r HIn.
    destruct (NewOptions packagePath (map denote calls)) as [[o|] [e0|]] eqn:Ho.
    1,3,4: exfalso; unfold Run in H; rewrite Ho in H; run_unfold H;
      inversion H; subst; contradiction.
    rewrite (Run_exec_cmd E os ctx packagePath _ o w out w' tr Ho H c ctx' cmd r HIn).
    apply NewOptions_Some in Ho. destruct Ho as [_ ->].
    unfold test_command. rewrite apply_opts_Args, apply_opts_Pattern.
    reflexivity.
  - unfold pattern_of_calls. intros Hc. clear H.
    assert (Hfold : forall p,
              fold_left (fun acc c => match c with
                                      | CallWithPattern q => q
                                      | _ => acc
                                      end) calls p = p).
    { induction calls as [|c calls IH]; intros p; simpl in *; [reflexivity|].
      apply andb_true_iff in Hc. destruct Hc as [Hc1 Hc2].
      destruct c; try discriminate Hc1; apply IH; exact Hc2. }
    apply Hfold.
Qed.

(** C9, witness: arguments given in two calls around a pattern. *)
Lemma Run_test_command_witness :
  let calls := [CallWithArgs ["-v"]; CallWithPattern "./pkg/...";
                CallWithArgs ["-race"; "-count=1"]] in
  let ctx := WithTimeout Background DefaultTimeout in
  let cmd := ["go"; "test"; "-coverprofile=/tmp/coverage.txt"; "./pkg/...";
              "-v"; "-race"; "-count=1"] in
  exists out w' tr r,
    Run (ex_engine ex_never 0 None) ex_os Background "/ctx" (map denote calls)
        (0, []) = (out, (w', tr)) /\
    In (EvExec 7 ctx cmd r) tr /\
    cmd = ["go"; "test"; "-coverprofile=/tmp/coverage.txt"; pattern_of_calls calls]
          ++ flat_map args_of_call calls.
Proof.
  intros calls ctx cmd. do 4 eexists.
  split; [vm_compute; reflexivity|].
  split; [right; right; left; reflexivity|].
  eapply (proj1 (Run_test_command (ex_engine ex_never 0 None) ex_os Background
                   "/ctx" calls 0 _ _ _ ltac:(vm_compute; reflexivity))
            7 ctx cmd).
  right; right; left; reflexivity.
Defined.

(** A run whose options are valid starts with the creation of the network,
    under the context of the run. *)
Lemma Run_first_call {World : Type} (E : Engine World) os ctx packagePath opts
    o w out w' tr :
  NewOptions packagePath opts = (Some o, None) ->
  Run E os ctx packagePath opts (w, []) = (out, (w', tr)) ->
  exists r w1 rest,
    network_New E (run_context ctx o) w = (r, w1) /\
    tr = EvNetworkNew (run_context ctx o) r :: rest.
Proof.
  intros Ho H. unfold Run in H. rewrite Ho in H. run_unfold H.
  repeat run_step H.
  all: inversion H; subst; clear H.
  all: do 3 eexists; split; reflexivity.
Qed.

(** C10, as amended.  The default timeout is 10 minutes.  Every run with
    valid options calls the engine, first to create the network, and makes
    each of its calls under one context: a context derived from that of the
    caller with the configured timeout when this timeout is above zero, and
    the context of the caller itself when it is zero or below.  When none of
    the configuration calls is WithTimeout, the timeout is 10 minutes and
    the context is derived with it.  When the calls hold WithTimeout(0) and
    no later WithTimeout, the timeout is zero and no context is derived.  A
    run whose calls are made under the context of the caller itself was
    configured by a WithTimeout call with a duration of zero or below: zero
    is one such duration, not the only one. *)
Theorem default_timeout_bounds_run {World : Type} (E : Engine World) os ctx
    packagePath w out w' tr :
  (forall calls o,
     forallb (fun c => negb (is_timeout_call c)) calls = true ->
     NewOptions packagePath (map denote calls) = (Some o, None) ->
     Timeout o = 600000000000%Z /\
     Timeout o <> 0%Z /\
     DefaultTimeout = (10 * Minute)%Z /\
     run_context ctx o = WithTimeout ctx DefaultTimeout /\
     (Run E os ctx packagePath (map denote calls) (w, []) = (out, (w', tr)) ->
      (exists r w1 rest,
         network_New E (WithTimeout ctx DefaultTimeout) w = (r, w1) /\
         tr = EvNetworkNew (WithTimeout ctx DefaultTimeout) r :: rest) /\
      Forall (under_ctx (WithTimeout ctx DefaultTimeout)) tr)) /\
  (forall calls rest o,
     forallb (fun c => negb (is_timeout_call c)) rest = true ->
     NewOptions packagePath (map denote (calls ++ CallWithTimeout 0%Z :: rest))
     = (Some o, None) ->
     Timeout o = 0%Z /\
     run_context ctx o = ctx /\
     (Run E os ctx packagePath (map denote (calls ++ CallWithTimeout 0%Z :: rest))
          (w, []) = (out, (w', tr)) ->
      (exists r w1 rest',
         network_New E ctx w = (r, w1) /\ tr = EvNetworkNew ctx r :: rest') /\
      Forall (under_ctx ctx) tr)) /\
  (forall calls o,
     NewOptions packagePath (map denote calls) = (Some o, None) ->
     Run E os ctx packagePath (map denote calls) (w, []) = (out, (w', tr)) ->
     Timeout o = timeout_of_calls calls /\
     (exists r w1 rest,
        network_New E (run_context ctx o) w = (r, w1) /\
        tr = EvNetworkNew (run_context ctx o) r :: rest) /\
     Forall (under_ctx (run_context ctx o)) tr /\
     ((0 < timeout_of_calls calls)%Z ->
      run_context ctx o = WithTimeout ctx (timeout_of_calls calls)) /\
     ((timeout_of_calls calls <= 0)%Z -> run_context ctx o = ctx) /\
     ((exists r rest, tr = EvNetworkNew ctx r :: rest) ->
      exists t, In (CallWithTimeout t) calls /\ (t <= 0)%Z /\
                timeout_of_calls calls = t)).
Proof.
  split; [|split].
  - intros calls o Hcalls Ho.
    assert (Ht : Timeout o = DefaultTimeout).
    { destruct (NewOptions_Some _ _ _ Ho) as [_ ->].
      rewrite apply_opts_Timeout by exact Hcalls. reflexivity. }
    assert (Hc : run_context ctx o = WithTimeout ctx DefaultTimeout).
    { unfold run_context. rewrite Ht. reflexivity. }
    split; [rewrite Ht; reflexivity|].
    split; [rewrite Ht; discriminate|].
    split; [reflexivity|]. split; [exact Hc|].
    intros H. rewrite <- Hc. split.
    + exact (Run_first_call E os ctx packagePath _ o w out w' tr Ho H).
    + exact (Run_under_ctx E os ctx packagePath _ o w out w' tr Ho H).
  - intros calls rest o Hrest Ho.
    assert (Ht : Timeout o = 0%Z).
    { destruct (NewOptions_Some _ _ _ Ho) as [_ ->].
      rewrite map_app, apply_opts_app, map_cons, apply_opts_cons.
      rewrite apply_opts_Timeout by exact Hrest. reflexivity. }
    assert (Hc : run_context ctx o = ctx).
    { unfold run_context. rewrite Ht. reflexivity. }
    split; [exact Ht|]. split; [exact Hc|].
    intros H.
    pose proof (Run_first_call E os ctx packagePath _ o w out w' tr Ho H) as Hf.
    pose proof (Run_under_ctx E os ctx packagePath _ o w out w' tr Ho H) as Hu.
    rewrite Hc in Hf, Hu. split; assumption.
  - intros calls o Ho H.
    assert (Ht : Timeout o = timeout_of_calls calls).
    { destruct (NewOptions_Some _ _ _ Ho) as [_ ->].
      destruct (apply_opts_fields calls
                  (mkOptions packagePath DefaultPattern [] [] false
                             DefaultSockPath DefaultTimeout))
        as (_ & _ & _ & H4 & _).
      exact H4. }
    pose proof (Run_first_call E os ctx packagePath _ o w out w' tr Ho H) as Hf.
    split; [exact Ht|]. split; [exact Hf|].
    split; [exact (Run_under_ctx E os ctx packagePath _ o w out w' tr Ho H)|].
    rewrite <- Ht.
    split; [apply run_context_bounded|].
    split; [apply run_context_unbounded|].
    intros (r & rest & Htr).
    destruct Hf as (r' & w1 & rest' & _ & Htr').
    rewrite Htr in Htr'. inversion Htr' as [[Hctx Hr Hrest]].
    symmetry in Hctx. apply run_context_unbounded in Hctx.
    destruct (timeout_of_calls_set calls) as [Hd|(t & Hin & Hset)].
    + exfalso. rewrite Ht, Hd in Hctx. vm_compute in Hctx. apply Hctx. reflexivity.
    + exists t. split; [exact Hin|]. split; [|rewrite Ht; exact Hset].
      rewrite Ht, Hset in Hctx. exact Hctx.
Qed.

(** C10, witness: a run configured with arguments only is bounded by the
    default timeout. *)
Lemma default_timeout_bounds_run_witness :
  let calls := [CallWithArgs ["-v"]] in
  let o := mkOptions "/ctx" DefaultPattern ["-v"] [] false DefaultSockPath
                     DefaultTimeout in
  let run := Run (ex_engine ex_never 0 None) ex_os Background "/ctx"
                 (map denote calls) (0, []) in
  forallb (fun c => negb (is_timeout_call c)) calls = true /\
  NewOptions "/ctx" (map denote calls) = (Some o, None) /\
  run = (fst run, (fst (snd run), snd (snd run))) /\
  Timeout o = 600000000000%Z /\
  Timeout o <> 0%Z /\
  DefaultTimeout = (10 * Minute)%Z /\
  run_context Background o = WithTimeout Background DefaultTimeout /\
  (exists r w1 rest,
     network_New (ex_engine ex_never 0 None)
       (WithTimeout Background DefaultTimeout) 0 = (r, w1) /\
     snd (snd run) = EvNetworkNew (WithTimeout Background DefaultTimeout) r :: rest) /\
  Forall (under_ctx (WithTimeout Background DefaultTimeout)) (snd (snd run)).
Proof.
  intros calls o run.
  assert (Hrun : run = (fst run, (fst (snd run), snd (snd run))))
    by (vm_compute; reflexivity).
  split; [reflexivity|]. split; [reflexivity|]. split; [exact Hrun|].
  destruct (proj1 (default_timeout_bounds_run (ex_engine ex_never 0 None) ex_os
                     Background "/ctx" 0 (fst run) (fst (snd run)) (snd (snd run)))
                  calls o eq_refl eq_refl)
    as (H1 & H2 & H3 & H4 & H5).
  repeat (split; [assumption|]).
  apply H5. exact Hrun.
Defined.

(** C10, counterexample to the claim as stated.  The claim has an unbounded
    run require an explicit WithTimeout(0); a run configured with
    WithTimeout(-1) and no WithTimeout(0) makes its calls under the context
    of the caller itself, with no deadline of its own. *)
Lemma default_timeout_bounds_run_counterexample :
  ~ (forall (World : Type) (E : Engine World) os ctx packagePath calls w out w' tr
            r rest,
       Run E os ctx packagePath (map denote calls) (w, []) = (out, (w', tr)) ->
       tr = EvNetworkNew ctx r :: rest ->
       In (CallWithTimeout 0%Z) calls).
Proof.
  intros H.
  assert (Hin : In (CallWithTimeout 0%Z) [CallWithTimeout (-1)%Z]).
  { eapply (H nat (ex_engine ex_never 0 None) ex_os Background "/ctx"
              [CallWithTimeout (-1)%Z] 0%nat).
    - vm_compute. reflexivity.
    - reflexivity. }
  destruct Hin as [Hin|[]]. discriminate Hin.
Qed.

(* ================================================================== *)
(** * Further properties of the options *)

(** X2.  The options [NewOptions] returns for a non-empty package path and
    any sequence of configuration calls: the package path is the one given;
    the aliases are those of the WithAliases calls, in the order of the
    calls; the socket path and the timeout are those of the last call that
    sets them, or the defaults; the socket is enabled exactly when some call
    is WithVarSock. *)
Theorem NewOptions_fields packagePath calls :
  packagePath <> "" ->
  exists o,
    NewOptions packagePath (map denote calls) = (Some o, None) /\
    PackagePath o = packagePath /\
    Aliases o = flat_map aliases_of_call calls /\
    SockPath o = sockpath_of_calls calls /\
    Timeout o = timeout_of_calls calls /\
    EnableVarSock o = varsock_of_calls calls.
Proof.
  intros Hp. unfold NewOptions.
  apply String.eqb_neq in Hp. rewrite Hp.
  eexists. split; [reflexivity|].
  destruct (apply_opts_fields calls
              (mkOptions packagePath DefaultPattern [] [] false
                         DefaultSockPath DefaultTimeout))
    as (H1 & H2 & H3 & H4 & H5).
  repeat split; assumption.
Qed.

Lemma NewOptions_fields_witness :
  let calls := [CallWithAliases ["a.test"]; CallWithSockPath "/s1";
                CallWithVarSock; CallWithAliases ["b.test"; "c.test"];
                CallWithSockPath "/s2"; CallWithTimeout 5%Z] in
  "/ctx" <> "" /\
  exists o,
    NewOptions "/ctx" (map denote calls) = (Some o, None) /\
    PackagePath o = "/ctx" /\
    Aliases o = ["a.test"; "b.test"; "c.test"] /\
    SockPath o = "/s2" /\
    Timeout o = 5%Z /\
    EnableVarSock o = true.
Proof.
  intros calls. split; [discriminate|].
  apply (NewOptions_fields "/ctx" calls). discriminate.
Defined.

(** X1.  With an empty package path [Run] returns the error
    "invalid options: package path is required", which wraps the error of
    [NewOptions], and no result, whatever the options; it makes no call into
    the engine: world and trace are as before. *)
Theorem Run_empty_package_path {World : Type} (E : Engine World) os ctx opts s :
  exists e,
    Run E os ctx "" opts s = (Returns (None, Some e), s) /\
    Error e = "invalid options: package path is required" /\
    errors_Is e (errorString "package path is required") = true.
Proof.
  eexists. split; [reflexivity|]. split; reflexivity.
Qed.

(* ================================================================== *)
(** * Further properties of the archiver *)

Lemma string_append_assoc (a b c : string) : (a ^^ b) ^^ c = a ^^ b ^^ c.
Proof. induction a; simpl; [reflexivity|]. rewrite IHa. reflexivity. Qed.

Lemma errors_Is_Errorf_w prefix e target :
  errors_Is e target = true -> errors_Is (Errorf_w prefix e) target = true.
Proof. intros H. unfold Errorf_w. simpl. rewrite H. apply orb_true_r. Qed.

Lemma errors_Is_TimeoutError op e target :
  errors_Is e target = true -> errors_Is (TimeoutError op e) target = true.
Proof. intros H. simpl. rewrite H. apply orb_true_r. Qed.

(** The root [fs.WalkDir] starts from is the directory at the path. *)
Lemma DirFS_Stat_inl os p root :
  DirFS_Stat os p = inl root ->
  os_DirFS os p = inl root /\ exists perm es re, root = Directory perm es re.
Proof.
  unfold DirFS_Stat.
  destruct (os_DirFS os p) as [[perm sz|perm es re|perm|perm]|err];
    intros H; inversion H; subst. eauto.
Qed.


Lemma CreateTarContext_cases os contextPath dockerfilePath :
  (exists a, CreateTarContext os contextPath dockerfilePath = (Some a, None)) \/
  (exists e, CreateTarContext os contextPath dockerfilePath = (None, Some e)).
Proof.
  unfold CreateTarContext.
  repeat (goal_scrutinee; eauto).
Qed.

(** X3.  [CreateTarContext] returns an archive and no error, or an error and
    no archive: never both, never neither, so never a partial archive. *)
Theorem CreateTarContext_archive_or_error os contextPath dockerfilePath :
  (exists a, CreateTarContext os contextPath dockerfilePath = (Some a, None)) \/
  (exists e, CreateTarContext os contextPath dockerfilePath = (None, Some e)).
Proof. apply CreateTarContext_cases. Qed.

(** X4.  An override recipe that cannot be read makes [CreateTarContext]
    fail, whatever the tree holds, with an error that names the path the
    override was read from (the path itself when absolute, else joined to
    the tree path) and wraps the error of the read.  A tree path that cannot
    be opened makes it fail with an error that wraps the error of the
    walk. *)
Theorem CreateTarContext_unreadable_inputs os contextPath dockerfilePath cause :
  (dockerfilePath <> "" ->
   os_ReadFile os (resolve_dockerfile contextPath dockerfilePath) = inr cause ->
   exists e,
     CreateTarContext os contextPath dockerfilePath = (None, Some e) /\
     Error e = "failed to read custom Dockerfile at "
               ^^ resolve_dockerfile contextPath dockerfilePath
               ^^ ": " ^^ Error cause /\
     errors_Is e cause = true) /\
  (os_DirFS os contextPath = inr cause ->
   exists e,
     CreateTarContext os contextPath "" = (None, Some e) /\
     Error e = "failed to walk context directory: " ^^ Error cause /\
     errors_Is e cause = true).
Proof.
  split.
  - intros Hdp Hread. unfold CreateTarContext.
    apply String.eqb_neq in Hdp. rewrite Hdp, Hread.
    eexists. split; [reflexivity|]. split.
    + unfold Errorf_w. simpl.
      f_equal. rewrite string_append_assoc. reflexivity.
    + apply errors_Is_Errorf_w, errors_Is_refl.
  - intros Hdir. unfold CreateTarContext. simpl String.eqb. cbv iota.
    unfold WalkDir, DirFS_Stat. rewrite Hdir, walkFn_error.
    eexists. split; [reflexivity|]. split; [reflexivity|].
    apply errors_Is_Errorf_w, errors_Is_refl.
Qed.

Lemma CreateTarContext_unreadable_inputs_witness :
  let cause := not_exist "open" "/ctx/nonexistent.Dockerfile" in
  "nonexistent.Dockerfile" <> "" /\
  os_ReadFile ex_os (resolve_dockerfile "/ctx" "nonexistent.Dockerfile")
  = inr cause /\
  exists e,
    CreateTarContext ex_os "/ctx" "nonexistent.Dockerfile" = (None, Some e) /\
    Error e = "failed to read custom Dockerfile at "
              ^^ resolve_dockerfile "/ctx" "nonexistent.Dockerfile"
              ^^ ": " ^^ Error cause /\
    errors_Is e cause = true.
Proof.
  intros cause. split; [discriminate|]. split; [reflexivity|].
  apply (proj1 (CreateTarContext_unreadable_inputs ex_os "/ctx"
                  "nonexistent.Dockerfile" cause)).
  - discriminate.
  - reflexivity.
Defined.

Lemma writer_consistent_flushed tw :
  writer_consistent tw -> tw_pending tw = 0%Z ->
  Forall (fun e => entry_complete e = true) (tw_entries tw).
Proof.
  unfold writer_consistent. destruct (tw_entries tw) as [|e done].
  - intros _ _. constructor.
  - intros [Hdone Hhead] Hp. constructor; [|exact Hdone].
    unfold entry_complete. destruct (Flag (hdr e)).
    + rewrite Hp, Z.add_0_r in Hhead. rewrite Hhead. apply Z.eqb_refl.
    + destruct Hhead as [-> _]. reflexivity.
    + destruct Hhead as [-> _]. reflexivity.
Qed.

Lemma WriteHeader_consistent tw h tw' :
  writer_consistent tw -> WriteHeader tw h = (tw', None) ->
  writer_consistent tw'.
Proof.
  intros Hc. unfold WriteHeader.
  destruct (tw_pending tw =? 0)%Z eqn:Hp; simpl; [|discriminate].
  destruct (Size h <? 0)%Z eqn:Hs; [discriminate|].
  intros H; inversion H; subst; clear H.
  unfold writer_consistent. simpl. split.
  - apply writer_consistent_flushed; [exact Hc|]. apply Z.eqb_eq, Hp.
  - destruct (Flag h); simpl; auto.
Qed.

Lemma Write_consistent tw b tw' :
  writer_consistent tw -> Write tw b = (tw', None) -> writer_consistent tw'.
Proof.
  intros Hc. unfold Write.
  destruct (Z.of_nat (length b) <=? tw_pending tw)%Z eqn:Hle; [|discriminate].
  apply Z.leb_le in Hle. unfold writer_consistent in *.
  destruct (tw_entries tw) as [|e done] eqn:He.
  - intros H; inversion H; subst. rewrite He. exact Hc.
  - intros H; inversion H; subst; clear H. simpl.
    destruct Hc as [Hdone Hhead]. split; [exact Hdone|].
    destruct (Flag (hdr e)).
    + rewrite length_app, Nat2Z.inj_add. lia.
    + destruct Hhead as [Hb Hp]. rewrite Hp in Hle |- *.
      assert (b = []) by (destruct b; [reflexivity|simpl in Hle; lia]).
      subst b. rewrite Hb. simpl. auto.
    + destruct Hhead as [Hb Hp]. rewrite Hp in Hle |- *.
      assert (b = []) by (destruct b; [reflexivity|simpl in Hle; lia]).
      subst b. rewrite Hb. simpl. auto.
Qed.

Lemma io_Copy_consistent tw f tw' :
  writer_consistent tw -> io_Copy tw f = (tw', None) -> writer_consistent tw'.
Proof.
  intros Hc. unfold io_Copy.
  destruct (Write tw (f_data f)) as [tw1 [e|]] eqn:Hw; [discriminate|].
  intros H; inversion H; subst. exact (Write_consistent _ _ _ Hc Hw).
Qed.

(** The callback keeps the writer consistent. *)
Lemma walkFn_consistent os cp path d err tw tw' :
  writer_consistent tw -> walkFn os cp path d err tw = (tw', None) ->
  writer_consistent tw'.
Proof.
  intros Hc H. unfold walkFn in H. cbv zeta in H.
  repeat match type of H with
         | context [WriteHeader ?t ?h] =>
             let Hw := fresh "Hw" in
             destruct (WriteHeader t h) as [? [?|]] eqn:Hw;
             [discriminate H|apply (WriteHeader_consistent _ _ _ Hc) in Hw]
         | context [io_Copy ?t ?f] =>
             let Hio := fresh "Hio" in
             destruct (io_Copy t f) as [? [?|]] eqn:Hio;
             [discriminate H
             |match goal with
              | Hw : writer_consistent t |- _ =>
                  apply (io_Copy_consistent _ _ _ Hw) in Hio
              end]
         | _ => destruct_scrutinee H; try discriminate H
         end.
  all: inversion H; subst; assumption.
Qed.

(** A walk keeps what its callback keeps. *)
Lemma walkDir_preserves (P : Writer -> Prop) (fn : WalkDirFunc) :
  (forall name d err tw tw', P tw -> fn name d err tw = (tw', None) -> P tw') ->
  forall d name tw tw',
    P tw -> walkDir fn name d tw = (tw', None) -> P tw'.
Proof.
  intros Hfn.
  induction d as [perm size|perm es re IH|perm|perm] using node_nested_ind;
    intros name tw tw' HP Hw.
  2:{ rewrite walkDir_Directory in Hw.
      destruct (fn name (Some (Directory perm es re)) None tw)
        as [tw1 [e|]] eqn:Hself; [discriminate|].
      apply (Hfn _ _ _ _ _ HP) in Hself.
      assert (Hread : exists tw2, P tw2 /\
                walk_list fn name es tw2 = (tw', None)).
      { destruct re as [err|].
        - destruct (fn name (Some (Directory perm es (Some err))) (Some err) tw1)
            as [tw2 [e|]] eqn:Hre; [discriminate|].
          exists tw2. split; [exact (Hfn _ _ _ _ _ Hself Hre)|exact Hw].
        - exists tw1. split; [exact Hself|exact Hw]. }
      destruct Hread as (tw2 & HP2 & Hl). clear Hw Hself HP.
      revert tw2 HP2 Hl.
      induction IH as [|[n1 d1] es Hd Hes IHes]; intros tw2 HP2 Hl; simpl in Hl.
      - inversion Hl; subst; exact HP2.
      - destruct (walkDir fn (Join [name; n1]) d1 tw2) as [tw3 [e|]] eqn:H1;
          [discriminate|].
        exact (IHes tw3 (Hd _ _ _ HP2 H1) Hl). }
  all: rewrite walkDir_leaf in Hw by (intros; discriminate);
    match type of Hw with
    | context [match ?X with _ => _ end] =>
        destruct X as [tw1 [e|]] eqn:Hself
    end; [discriminate|]; inversion Hw; subst;
    exact (Hfn _ _ _ _ _ HP Hself).
Qed.

Lemma CreateTarContext_flushed os contextPath dockerfilePath a :
  CreateTarContext os contextPath dockerfilePath = (Some a, None) ->
  Forall (fun e => entry_complete e = true) a.
Proof.
  unfold CreateTarContext. intros H.
  match type of H with
  | context [if String.eqb dockerfilePath "" then ?x else ?y] =>
      destruct (if String.eqb dockerfilePath "" then x else y)
        as [content|e]; [|discriminate H]
  end.
  unfold WalkDir in H.
  destruct (DirFS_Stat os contextPath) as [root|err];
    [|rewrite walkFn_error in H; discriminate H].
  destruct (walkDir (walkFn os contextPath) "." root NewWriter)
    as [tw1 [e|]] eqn:Hwalk; [discriminate H|].
  assert (H1 : writer_consistent tw1).
  { apply (walkDir_preserves writer_consistent (walkFn os contextPath)
             (walkFn_consistent os contextPath) root "." NewWriter tw1);
      [reflexivity|exact Hwalk]. }
  destruct (WriteHeader tw1 (dockerfileHeader content)) as [tw2 [e|]] eqn:Hh;
    [discriminate H|].
  apply (WriteHeader_consistent _ _ _ H1) in Hh.
  destruct (Write tw2 content) as [tw3 [e|]] eqn:Hw; [discriminate H|].
  apply (Write_consistent _ _ _ Hh) in Hw.
  unfold Close in H.
  destruct (tw_pending tw3 =? 0)%Z eqn:Hp; simpl in H; [|discriminate H].
  inversion H; subst. apply Forall_rev.
  apply writer_consistent_flushed; [exact Hw|]. apply Z.eqb_eq, Hp.
Qed.

(** X7.  In every archive [CreateTarContext] returns, every entry is
    complete: a regular entry holds exactly as many bytes as its header
    gives as size, and a directory or link entry holds none. *)
Theorem CreateTarContext_entries_complete os contextPath dockerfilePath a :
  CreateTarContext os contextPath dockerfilePath = (Some a, None) ->
  Forall (fun e => entry_complete e = true) a.
Proof. apply CreateTarContext_flushed. Qed.

Lemma CreateTarContext_entries_complete_witness :
  exists a,
    CreateTarContext ex_os "/ctx" "" = (Some a, None) /\
    Forall (fun e => entry_complete e = true) a.
Proof.
  eexists. split; [vm_compute; reflexivity|].
  apply (CreateTarContext_entries_complete ex_os "/ctx" "").
  vm_compute. reflexivity.
Defined.

Lemma walk_list_each fn name es :
  forall tw tw',
    walk_list fn name es tw = (tw', None) ->
    forall n1 d1, In (n1, d1) es ->
      exists t t', walkDir fn (Join [name; n1]) d1 t = (t', None).
Proof.
  induction es as [|[n0 d0] es IH]; intros tw tw' Hw n1 d1 HIn; [destruct HIn|].
  simpl in Hw.
  destruct (walkDir fn (Join [name; n0]) d0 tw) as [tw1 [e|]] eqn:H0;
    [discriminate|].
  destruct HIn as [Heq|HIn].
  - inversion Heq; subst. eauto.
  - exact (IH _ _ Hw n1 d1 HIn).
Qed.

(** A walk that succeeds has read every directory of the tree. *)
Lemma walkDir_reads_directories os cp d :
  forall name tw tw',
    walkDir (walkFn os cp) name d tw = (tw', None) ->
    forall p perm es err,
      node_at d p <> Some (Directory perm es (Some err)).
Proof.
  induction d as [perm0 size|perm0 es0 re IH|perm0|perm0] using node_nested_ind;
    intros name tw tw' Hw p perm es err Hn.
  2:{ rewrite walkDir_Directory in Hw.
      destruct (walkFn os cp name (Some (Directory perm0 es0 re)) None tw)
        as [tw1 [e|]]; [discriminate|].
      destruct re as [err0|]; [rewrite walkFn_error in Hw; discriminate|].
      destruct p as [|n1 p]; simpl in Hn; [discriminate|].
      destruct (find_entry n1 es0) as [d1|] eqn:Hf; [|discriminate].
      apply find_entry_In in Hf.
      destruct (walk_list_each _ _ _ _ _ Hw n1 d1 Hf) as (t & t' & H1).
      rewrite Forall_forall in IH.
      exact (IH (n1, d1) Hf _ _ _ H1 p perm es err Hn). }
  all: destruct p; simpl in Hn; discriminate.
Qed.

(** X6.  A directory of the tree that cannot be listed makes
    [CreateTarContext] fail, wherever it is and whatever it is called: the
    root, a directory deep in the tree, or one named Dockerfile. *)
Theorem CreateTarContext_unreadable_directory os contextPath dockerfilePath
    root p perm es err :
  os_DirFS os contextPath = inl root ->
  node_at root p = Some (Directory perm es (Some err)) ->
  exists e, CreateTarContext os contextPath dockerfilePath = (None, Some e).
Proof.
  intros Hroot Hn.
  destruct (CreateTarContext_cases os contextPath dockerfilePath)
    as [[a Ha]|He]; [exfalso|exact He].
  unfold CreateTarContext in Ha.
  match type of Ha with
  | context [if String.eqb dockerfilePath "" then ?x else ?y] =>
      destruct (if String.eqb dockerfilePath "" then x else y)
        as [content|e]; [|discriminate Ha]
  end.
  unfold WalkDir in Ha.
  destruct (DirFS_Stat os contextPath) as [root'|err'] eqn:Hs;
    [|rewrite walkFn_error in Ha; discriminate Ha].
  apply DirFS_Stat_inl in Hs. destruct Hs as [Hs _].
  rewrite Hroot in Hs. inversion Hs; subst root'.
  destruct (walkDir (walkFn os contextPath) "." root NewWriter)
    as [tw1 [e|]] eqn:Hwalk; [discriminate Ha|].
  exact (walkDir_reads_directories os contextPath root _ _ _ Hwalk
           p perm es err Hn).
Qed.

(** X5.  An entry of the tree that is neither the root nor named Dockerfile
    and that cannot be archived (a socket, a regular file that cannot be
    opened or read to the end or that does not hold the number of bytes its
    [FileInfo] gives, a link whose target cannot be read) makes
    [CreateTarContext] fail: no archive is returned without it. *)
Theorem CreateTarContext_unreadable_entry os contextPath dockerfilePath
    root p n :
  os_DirFS os contextPath = inl root ->
  node_at root p = Some n ->
  walk_path p <> "." ->
  Base (walk_path p) <> "Dockerfile" ->
  entry_unreadable os contextPath (walk_path p) n ->
  exists e, CreateTarContext os contextPath dockerfilePath = (None, Some e).
Proof.
  intros Hroot Hn Hp Hb Hbad.
  destruct (CreateTarContext_cases os contextPath dockerfilePath)
    as [[a Ha]|He]; [exfalso|exact He].
  pose proof (CreateTarContext_flushed _ _ _ _ Ha) as Hcomplete.
  apply CreateTarContext_shape in Ha.
  destruct Ha as (root' & new & content & Hroot' & (new' & Enew & _ & Hall)
                  & Ea & _).
  rewrite Hroot in Hroot'. inversion Hroot'; subst root'.
  rewrite app_nil_r in Enew. subst new'.
  destruct (Hall p n Hn Hp Hb) as (e & He & Hname & Hspec).
  change (path_below "." p) with (walk_path p) in Hname, Hspec.
  assert (Hc : entry_complete e = true).
  { rewrite Forall_forall in Hcomplete. apply Hcomplete.
    rewrite Ea. apply in_or_app. left. apply in_rev in He. exact He. }
  destruct n as [perm size|perm es re|perm|perm]; simpl in Hbad, Hspec.
  - destruct Hspec as (Hflag & _ & Hsize & f & Hopen & Hread & Hbody).
    rewrite Hopen in Hbad. unfold entry_complete in Hc.
    rewrite Hflag, Hbody, Hsize in Hc. apply Z.eqb_eq in Hc.
    destruct Hbad as [Hbad|Hbad]; [exact (Hbad Hread)|exact (Hbad Hc)].
  - exact Hbad.
  - destruct Hspec as (_ & _ & _ & Hlink). rewrite Hlink in Hbad. exact Hbad.
  - exact Hspec.
Qed.

Lemma CreateTarContext_unreadable_directory_witness :
  os_DirFS ex_os_bad "/bad" = inl ex_tree_bad /\
  node_at ex_tree_bad ["Dockerfile"]
  = Some (Directory 448 []
            (Some (errorString "open Dockerfile: permission denied"))) /\
  exists e, CreateTarContext ex_os_bad "/bad" "" = (None, Some e).
Proof.
  split; [reflexivity|]. split; [reflexivity|].
  apply (CreateTarContext_unreadable_directory ex_os_bad "/bad" "" ex_tree_bad
           ["Dockerfile"] 448 []
           (errorString "open Dockerfile: permission denied"));
    reflexivity.
Defined.

Lemma CreateTarContext_unreadable_entry_witness :
  os_DirFS ex_os_bad "/bad" = inl ex_tree_bad /\
  node_at ex_tree_bad ["short.txt"] = Some (Regular 420 10) /\
  walk_path ["short.txt"] = "short.txt" /\
  entry_unreadable ex_os_bad "/bad" (walk_path ["short.txt"]) (Regular 420 10) /\
  exists e, CreateTarContext ex_os_bad "/bad" "" = (None, Some e).
Proof.
  assert (Hbad : entry_unreadable ex_os_bad "/bad" (walk_path ["short.txt"])
                   (Regular 420 10)).
  { vm_compute. right. discriminate. }
  split; [reflexivity|]. split; [reflexivity|]. split; [reflexivity|].
  split; [exact Hbad|].
  apply (CreateTarContext_unreadable_entry ex_os_bad "/bad" "" ex_tree_bad
           ["short.txt"] (Regular 420 10));
    [reflexivity|reflexivity|discriminate|discriminate|exact Hbad].
Defined.

(* ================================================================== *)
(** * Further properties of the sessions *)

(** X9.  When [CreateNetwork] returns without error it returns a network
    whose handle is not nil, under the name the engine gave it, and a
    release function that does what [Remove] does on that network; when it
    returns an error, the error wraps that of the engine and there is
    neither network nor release function.  [Remove] on a network without
    handle returns nil and makes no call into the engine. *)
Theorem CreateNetwork_release {World : Type} (E : Engine World) ctx s
    dn cleanup err s' :
  CreateNetwork E ctx s = (Returns (dn, cleanup, err), s') ->
  (err = None ->
   exists net f,
     dn = Some (mkDockerNetwork (tc_Name net) (Some net)) /\
     cleanup = Some f /\
     In (EvNetworkNew ctx (Returns (inl net))) (snd s') /\
     forall ctx' s0,
       f ctx' s0 =
       DockerNetwork_Remove E (mkDockerNetwork (tc_Name net) (Some net)) ctx' s0) /\
  (forall e, err = Some e ->
     dn = None /\ cleanup = None /\
     exists cause, In (EvNetworkNew ctx (Returns (inr cause))) (snd s') /\
                   Error e = "failed to create docker network: " ^^ Error cause /\
                   errors_Is e cause = true) /\
  (forall name ctx' s0,
     DockerNetwork_Remove E (mkDockerNetwork name None) ctx' s0 = (Returns None, s0)).
Proof.
  intros H. destruct s as [w tr].
  cbv beta iota zeta delta [CreateNetwork bind call ret fst snd] in H.
  destruct (network_New E ctx w) as [[[net|cause]|v] w1] eqn:Hnew;
    inversion H; subst; clear H.
  - split; [|split; [intros e He; discriminate|reflexivity]].
    intros _. exists net. eexists. split; [reflexivity|]. split; [reflexivity|].
    split; [apply in_or_app; right; left; reflexivity|].
    intros ctx' s0. reflexivity.
  - split; [intros He; discriminate|]. split; [|reflexivity].
    intros e He. inversion He; subst. split; [reflexivity|]. split; [reflexivity|].
    exists cause. split; [apply in_or_app; right; left; reflexivity|].
    split; [reflexivity|]. apply errors_Is_Errorf_w, errors_Is_refl.
Qed.

Lemma CreateNetwork_release_witness :
  let E := ex_engine ex_never 0 None in
  exists dn cleanup s',
    CreateNetwork E Background (0, []) = (Returns (dn, cleanup, None), s') /\
    exists net f,
      dn = Some (mkDockerNetwork (tc_Name net) (Some net)) /\
      cleanup = Some f /\
      In (EvNetworkNew Background (Returns (inl net))) (snd s') /\
      forall ctx' s0,
        f ctx' s0 =
        DockerNetwork_Remove E (mkDockerNetwork (tc_Name net) (Some net)) ctx' s0.
Proof.
  intros E. do 3 eexists. split; [reflexivity|].
  eapply (proj1 (CreateNetwork_release E Background (0, []) _ _ None _ eq_refl)).
  reflexivity.
Defined.

(** X10.  When [CreateContainer] returns without error, the session it
    returns has a handle that is not nil, the one [GenericContainer]
    returned, and that call is the only call it made into the engine; when
    it returns an error it returns no session, and it made no call into the
    engine or the one call that failed. *)
Theorem CreateContainer_session {World : Type} (E : Engine World) os ctx cfg
    w tr tc err w' tr' :
  CreateContainer E os ctx cfg (w, tr) = (Returns (tc, err), (w', tr')) ->
  (err = None ->
   exists c req,
     tc = Some (mkTestContainer (Some c)) /\
     tr' = tr ++ [EvGenericContainer ctx req (Returns (inl c))]) /\
  (err <> None ->
   tc = None /\
   ((w' = w /\ tr' = tr) \/
    exists req cause,
      tr' = tr ++ [EvGenericContainer ctx req (Returns (inr cause))] /\
      err = Some (Errorf_w "failed to create container: " cause))).
Proof.
  intros H. apply CreateContainer_cases in H.
  destruct H as [(-> & -> & e & He)
                |(req & r & Hgc & -> & [(v & -> & He)|[(e & -> & He)|(c & -> & He)]])];
    inversion He; subst; clear He.
  - split; [intros Hn; discriminate|]. intros _. split; [reflexivity|].
    left; auto.
  - split; [intros Hn; discriminate|]. intros _. split; [reflexivity|].
    right. eauto.
  - split; [|intros Hn; contradiction]. intros _. eauto.
Qed.

Lemma CreateContainer_session_witness :
  let E := ex_engine ex_never 0 None in
  let cfg := mkCreateContainerConfig "/ctx" None [] false "" "" "" in
  exists tc w' tr',
    CreateContainer E ex_os Background cfg (0, []) = (Returns (tc, None), (w', tr')) /\
    exists c req,
      tc = Some (mkTestContainer (Some c)) /\
      tr' = [] ++ [EvGenericContainer Background req (Returns (inl c))].
Proof.
  intros E cfg. do 3 eexists. split; [vm_compute; reflexivity|].
  eapply (proj1 (CreateContainer_session E ex_os Background cfg 0 [] _ None _ _
                   ltac:(vm_compute; reflexivity))).
  reflexivity.
Defined.

(** X11.  [CreateContainer] fails before any call into the engine when the
    package path does not exist, with the error
    "package path does not exist: <absolute path>", and when the build
    context cannot be archived, with an error that wraps the one of
    [CreateTarContext]. *)
Theorem CreateContainer_fails_early {World : Type} (E : Engine World) os ctx
    cfg absPath s :
  Abs os (cfg_PackagePath cfg) = inl absPath ->
  (os_Exists os absPath = false ->
   CreateContainer E os ctx cfg s =
   (Returns (None, Some (errorString
                           ("package path does not exist: " ^^ absPath))), s)) /\
  (forall oa cause,
     os_Exists os absPath = true ->
     CreateTarContext os absPath (cfg_DockerfilePath cfg) = (oa, Some cause) ->
     exists e,
       CreateContainer E os ctx cfg s = (Returns (None, Some e), s) /\
       Error e = "failed to create tar context: " ^^ Error cause /\
       errors_Is e cause = true).
Proof.
  intros Habs. split.
  - intros Hex. unfold CreateContainer. rewrite Habs, Hex. reflexivity.
  - intros oa cause Hex Htar. unfold CreateContainer.
    rewrite Habs, Hex, Htar. simpl.
    eexists. split; [reflexivity|]. split; [reflexivity|].
    apply errors_Is_Errorf_w, errors_Is_refl.
Qed.

Lemma CreateContainer_fails_early_witness :
  let E := ex_engine ex_never 0 None in
  let cfg := mkCreateContainerConfig "missing" None [] false "" "" "" in
  Abs ex_os (cfg_PackagePath cfg) = inl "/work/missing" /\
  os_Exists ex_os "/work/missing" = false /\
  CreateContainer E ex_os Background cfg (0, []) =
  (Returns (None, Some (errorString
                          "package path does not exist: /work/missing")), (0, [])).
Proof.
  intros E cfg. split; [reflexivity|]. split; [reflexivity|].
  apply (proj1 (CreateContainer_fails_early E ex_os Background cfg
                  "/work/missing" (0, []) eq_refl)).
  reflexivity.
Defined.

(** X12.  On a live session [ExecTest] makes exactly one call into the
    engine: the command go test -coverprofile=<file> <pattern> <args...>,
    with /tmp/coverage.txt and "./..." for an empty file and an empty
    pattern, under a context derived with the configured timeout, or with 10
    minutes when it is zero.  When the command has run and its output has
    been read, the exit code, zero or not, and the output are returned as a
    result without error; when the call or the reading fails, an error that
    wraps the failure is returned without result; a panic of the engine is
    passed on. *)
Theorem ExecTest_runs_go_test {World : Type} (E : Engine World) h ctx cfg
    w tr out w' tr' :
  ExecTest E (mkTestContainer (Some h)) ctx cfg (w, tr) = (out, (w', tr')) ->
  let timeout := if Z.eqb (ec_Timeout cfg) 0 then (10 * Minute)%Z
                 else ec_Timeout cfg in
  let cmd := ["go"; "test";
              "-coverprofile=" ^^ (if String.eqb (ec_CoverageFile cfg) ""
                                   then "/tmp/coverage.txt"
                                   else ec_CoverageFile cfg);
              (if String.eqb (ec_Pattern cfg) "" then "./..."
               else ec_Pattern cfg)] ++ ec_Args cfg in
  exists r,
    ctr_Exec E h (WithTimeout ctx timeout) cmd w = (r, w') /\
    tr' = tr ++ [EvExec h (WithTimeout ctx timeout) cmd r] /\
    match r with
    | Panics v => out = Panics v
    | Returns (inr cause) =>
        exists e, out = Returns (None, Some e) /\ errors_Is e cause = true
    | Returns (inl (code, rdr)) =>
        match rdr with
        | Some (mkReader _ (Some cause)) =>
            exists e, out = Returns (None, Some e) /\ errors_Is e cause = true
        | _ => out = Returns (Some (mkExecResult (option_map r_data rdr) code), None)
        end
    end.
Proof.
  intros H timeout cmd. subst timeout cmd.
  unfold ExecTest in H.
  cbv beta iota zeta delta
    [defer bind call ret cancel get_ctx_Err ctr fst snd] in H.
  repeat (destruct_scrutinee H; cbn beta iota zeta delta [fst snd] in H;
          try discriminate H).
  all: inversion H; subst; clear H.
  all: try match goal with
           | rd : reader, Hrd : r_err _ = _ |- _ =>
               destruct rd; cbn [r_err] in Hrd; subst
           end.
  all: eexists;
    (split; [first [reflexivity
                   |match goal with
                    | Hx : ctr_Exec _ _ _ _ _ = _ |- _ => exact Hx
                    end]|]);
    (split; [reflexivity|]); cbn beta iota.
  all: try reflexivity.
  all: eexists; (split; [reflexivity|]); apply errors_Is_Errorf_w, errors_Is_refl.
Qed.

Lemma ExecTest_runs_go_test_witness :
  let E := ex_engine ex_never 1 None in
  let cfg := mkExecConfig "" ["-v"] "" 0%Z in
  let ctx := WithTimeout Background (10 * Minute)%Z in
  let cmd := ["go"; "test"; "-coverprofile=/tmp/coverage.txt"; "./..."; "-v"] in
  let r := Returns (inl (1%Z, Some (mkReader ex_output None))) in
  ExecTest E (mkTestContainer (Some 7)) Background cfg (0, [])
  = (Returns (Some (mkExecResult (Some ex_output) 1), None),
     (1, [EvExec 7 ctx cmd r])) /\
  exists r',
    ctr_Exec E 7 ctx cmd 0 = (r', 1) /\
    [EvExec 7 ctx cmd r] = [] ++ [EvExec 7 ctx cmd r'].
Proof.
  intros E cfg ctx cmd r. split; [reflexivity|].
  destruct (ExecTest_runs_go_test E 7 Background cfg 0 [] _ _ _ eq_refl)
    as (r' & H1 & H2 & _).
  exists r'. split; [exact H1|exact H2].
Defined.

(** X13.  On a live session [CopyFileFromContainer] makes exactly one call
    into the engine, for the path it was given.  The bytes it returns are
    those of the reader the engine returned, read without error, and it
    returns bytes in no other case; it returns an error only when reading
    that reader failed, and the error wraps that failure; it never returns
    both bytes and an error. *)
Theorem CopyFileFromContainer_result {World : Type} (E : Engine World) h ctx
    path w tr out w' tr' :
  CopyFileFromContainer E (mkTestContainer (Some h)) ctx path (w, tr)
  = (out, (w', tr')) ->
  exists r,
    ctr_CopyFileFromContainer E h ctx path w = (r, w') /\
    tr' = tr ++ [EvCopyFile h ctx path r] /\
    (forall v, r = Panics v -> out = Panics v) /\
    (forall b e, out = Returns (b, e) ->
       b = coverage_of r /\
       (b <> None -> e = None) /\
       (forall e', e = Some e' ->
          exists rd cause, r = Returns (inl rd) /\ r_err rd = Some cause /\
                           errors_Is e' cause = true)).
Proof.
  intros H.
  cbv beta iota zeta delta
    [CopyFileFromContainer bind call ret ctr fst snd] in H.
  destruct (ctr_CopyFileFromContainer E h ctx path w)
    as [[[[data [cause|]]|cause]|v] w1] eqn:Hcopy;
    inversion H; subst; clear H;
    eexists; (split; [reflexivity|]); (split; [reflexivity|]);
    (split; [intros v' Hv; inversion Hv; subst; reflexivity|]);
    intros b e Hout; inversion Hout; subst; clear Hout;
    (split; [reflexivity|]); (split; [intros Hb; try reflexivity; contradiction|]);
    intros e' He'; inversion He'; subst.
  do 2 eexists. split; [reflexivity|]. split; [reflexivity|].
  apply errors_Is_Errorf_w, errors_Is_refl.
Qed.

Lemma CopyFileFromContainer_result_witness :
  let E := ex_engine ex_never 0 (Some (bytes "mode: set")) in
  CopyFileFromContainer E (mkTestContainer (Some 7)) Background
    "/tmp/coverage.txt" (0, [])
  = (Returns (Some (bytes "mode: set"), None),
     (1, [EvCopyFile 7 Background "/tmp/coverage.txt"
            (Returns (inl (mkReader (bytes "mode: set") None)))])) /\
  exists r,
    ctr_CopyFileFromContainer E 7 Background "/tmp/coverage.txt" 0 = (r, 1) /\
    Some (bytes "mode: set") = coverage_of r.
Proof.
  intros E. split; [reflexivity|].
  destruct (CopyFileFromContainer_result E 7 Background "/tmp/coverage.txt"
              0 [] _ _ _ eq_refl) as (r & H1 & _ & _ & H4).
  exists r. split; [exact H1|]. exact (proj1 (H4 _ _ eq_refl)).
Defined.

(** The archive [CreateTarContext] returns: what the walk left in the writer,
    oldest first, then the recipe entry. *)
Lemma CreateTarContext_walk_part os cp dp a :
  CreateTarContext os cp dp = (Some a, None) ->
  exists content root tw1,
    os_DirFS os cp = inl root /\
    walkDir (walkFn os cp) "." root NewWriter = (tw1, None) /\
    a = rev (tw_entries tw1) ++ [mkEntry (dockerfileHeader content) content].
Proof.
  unfold CreateTarContext. intros H.
  match type of H with
  | context [if String.eqb dp "" then ?x else ?y] =>
      destruct (if String.eqb dp "" then x else y) as [content|e];
      [|discriminate H]
  end.
  unfold WalkDir in H.
  destruct (DirFS_Stat os cp) as [root|err] eqn:Hs;
    [|rewrite walkFn_error in H; discriminate H].
  apply DirFS_Stat_inl in Hs. destruct Hs as [Hs _].
  destruct (walkDir (walkFn os cp) "." root NewWriter) as [tw1 [e|]] eqn:Hwalk;
    [discriminate H|].
  unfold WriteHeader in H.
  destruct (negb (tw_pending tw1 =? 0)%Z); [discriminate H|].
  cbn [Size dockerfileHeader Flag] in H.
  destruct (Z.of_nat (length content) <? 0)%Z; [discriminate H|].
  unfold Write in H. cbn [tw_pending tw_entries hdr body] in H.
  destruct (Z.of_nat (length content) <=? Z.of_nat (length content))%Z;
    [|discriminate H].
  unfold Close in H. cbn [tw_pending tw_entries] in H.
  destruct (negb (Z.of_nat (length content) - Z.of_nat (length content) =? 0)%Z);
    [discriminate H|].
  inversion H; subst; clear H.
  exists content, root, tw1. split; [exact Hs|]. split; [exact Hwalk|].
  reflexivity.
Qed.

(** X8.  The override recipe decides the last entry of the archive and
    nothing else: two archives of the same tree, built with whatever
    overrides, have the same entries up to the recipe entry that ends
    each. *)
Theorem CreateTarContext_override_only_recipe os contextPath
    dockerfilePath1 dockerfilePath2 a1 a2 :
  CreateTarContext os contextPath dockerfilePath1 = (Some a1, None) ->
  CreateTarContext os contextPath dockerfilePath2 = (Some a2, None) ->
  exists walked recipe1 recipe2,
    a1 = walked ++ [recipe1] /\ a2 = walked ++ [recipe2] /\
    Name (hdr recipe1) = "Dockerfile" /\ Name (hdr recipe2) = "Dockerfile".
Proof.
  intros H1 H2.
  apply CreateTarContext_walk_part in H1, H2.
  destruct H1 as (c1 & root1 & tw1 & Hr1 & Hw1 & ->).
  destruct H2 as (c2 & root2 & tw2 & Hr2 & Hw2 & ->).
  rewrite Hr1 in Hr2. inversion Hr2; subst root2.
  rewrite Hw1 in Hw2. inversion Hw2; subst tw2.
  do 3 eexists. repeat split.
Qed.

Lemma CreateTarContext_override_only_recipe_witness :
  exists a1 a2,
    CreateTarContext ex_os "/ctx" "" = (Some a1, None) /\
    CreateTarContext ex_os "/ctx" "/recipes/external.Dockerfile" = (Some a2, None) /\
    exists walked recipe1 recipe2,
      a1 = walked ++ [recipe1] /\ a2 = walked ++ [recipe2] /\
      Name (hdr recipe1) = "Dockerfile" /\ Name (hdr recipe2) = "Dockerfile".
Proof.
  do 2 eexists. split; [vm_compute; reflexivity|].
  split; [vm_compute; reflexivity|].
  apply (CreateTarContext_override_only_recipe ex_os "/ctx" ""
           "/recipes/external.Dockerfile"); vm_compute; reflexivity.
Defined.



(* ================================================================== *)
(** * Further properties of the orchestrator *)

Ltac in_literal :=
  repeat first [left; reflexivity | right].

Ltac split_in H :=
  simpl in H;
  repeat (destruct H as [H|H]; [try discriminate H|]);
  try contradiction.

(** X14.  In every run, the engine is asked exactly once to remove a network
    that was created and exactly once to terminate a container that was
    created, on the handle that was created and under the context of its
    creation, however that call ends (it may fail and leave the network or
    the container behind, or panic); and [Run] asks for the removal of no
    network and for the termination of no container but those it
    created. *)
Theorem Run_teardown_calls_once {World : Type} (E : Engine World) os ctx
    packagePath opts w out w' tr :
  Run E os ctx packagePath opts (w, []) = (out, (w', tr)) ->
  (forall ctx' net,
     In (EvNetworkNew ctx' (Returns (inl net))) tr ->
     exists r, filter is_network_remove tr = [EvNetworkRemove net ctx' r]) /\
  (forall ctx' req c,
     In (EvGenericContainer ctx' req (Returns (inl c))) tr ->
     exists r, filter is_terminate tr = [EvTerminate c ctx' r]) /\
  (forall nw ctx' r,
     In (EvNetworkRemove nw ctx' r) tr ->
     In (EvNetworkNew ctx' (Returns (inl nw))) tr) /\
  (forall c ctx' r,
     In (EvTerminate c ctx' r) tr ->
     exists req, In (EvGenericContainer ctx' req (Returns (inl c))) tr).
Proof.
  intros H. unfold Run in H.
  destruct (NewOptions packagePath opts) as [[o|] [e0|]] eqn:Ho;
    run_unfold H;
    try (inversion H; subst; repeat split; intros; contradiction).
  repeat run_step H.
  all: inversion H; subst; clear H.
  all: repeat split.
  all: intros; match goal with HIn : In _ _ |- _ => split_in HIn end.
  all: match goal with HIn : _ = _ |- _ => inversion HIn; subst; clear HIn end.
  all: try (eexists; reflexivity).
  all: try (eexists; in_literal).
  all: in_literal.
Qed.

(** X15.  The phases of a run come in order and each needs the one before:
    a container is requested only right after the network was created; a
    test command is executed only right after network and container were
    created, on that container; the coverage file is copied only from the
    fixed path and only after the command has run and its output has been
    read. *)
Theorem Run_phase_order {World : Type} (E : Engine World) os ctx
    packagePath opts w out w' tr :
  Run E os ctx packagePath opts (w, []) = (out, (w', tr)) ->
  (forall ctx' req r,
     In (EvGenericContainer ctx' req r) tr ->
     exists net rest,
       tr = EvNetworkNew ctx' (Returns (inl net))
            :: EvGenericContainer ctx' req r :: rest) /\
  (forall c ctx' cmd r,
     In (EvExec c ctx' cmd r) tr ->
     exists net req rest,
       tr = EvNetworkNew ctx' (Returns (inl net))
            :: EvGenericContainer ctx' req (Returns (inl c))
            :: EvExec c ctx' cmd r :: rest) /\
  (forall c ctx' path r,
     In (EvCopyFile c ctx' path r) tr ->
     path = "/tmp/coverage.txt" /\
     exists cmd code rdr,
       In (EvExec c ctx' cmd (Returns (inl (code, rdr)))) tr /\
       read_ok rdr = true).
Proof.
  intros H. unfold Run in H.
  destruct (NewOptions packagePath opts) as [[o|] [e0|]] eqn:Ho;
    run_unfold H;
    try (inversion H; subst; repeat split; intros; contradiction).
  repeat run_step H.
  all: inversion H; subst; clear H.
  all: split; [|split].
  all: intros; match goal with HIn : In _ _ |- _ => split_in HIn end.
  all: match goal with HIn : _ = _ |- _ => inversion HIn; subst; clear HIn end.
  all: try (do 2 eexists; reflexivity).
  all: try (do 3 eexists; reflexivity).
  all: split; [reflexivity|]; do 3 eexists; split; [in_literal|].
  all: unfold read_ok; try reflexivity.
  all: match goal with Hr : r_err _ = None |- _ => rewrite Hr; reflexivity end.
Qed.



(** X18.  For the inputs of the embedding, which are a context that is not
    nil, option functions that are not nil and that return, and an engine
    that returns a network whenever it returns no error (Go panics on a nil
    context, on a nil option function and on a nil network), [Run] panics
    exactly when a call into the engine panicked: it passes every such panic
    on after the cleanups, and no step of its own panics. *)
Theorem Run_panics_with_engine {World : Type} (E : Engine World) os ctx
    packagePath opts w out w' tr :
  Run E os ctx packagePath opts (w, []) = (out, (w', tr)) ->
  (exists v, out = Panics v) <-> existsb event_panicked tr = true.
Proof.
  intros H. unfold Run, NewOptions in H.
  destruct (String.eqb packagePath "");
    [inversion H; subst; split; [intros [? Hv]; discriminate Hv|discriminate]|].
  run_unfold H.
  repeat run_step H.
  all: try match goal with
           | Hx : wrapTimeoutError _ (Some _) _ = None |- _ =>
               exfalso; unfold wrapTimeoutError in Hx;
               destruct (errors_Is_opt _ _) in Hx; discriminate Hx
           end.
  all: inversion H; subst; clear H.
  all: split;
    [let Hq := fresh in intro Hq; destruct Hq as [? Hq];
     try discriminate Hq; reflexivity
    |let Hq := fresh in intro Hq; try discriminate Hq; eexists; reflexivity].
Qed.

Lemma errors_Is_wrapTimeoutError ctxErr e operation r target :
  wrapTimeoutError ctxErr (Some e) operation = Some r ->
  errors_Is e target = true -> errors_Is r target = true.
Proof.
  unfold wrapTimeoutError.
  destruct (errors_Is_opt ctxErr deadlineExceededError);
    intros H He; inversion H; subst.
  - apply errors_Is_TimeoutError, He.
  - apply errors_Is_Errorf_w, He.
Qed.

Ltac cause_reachable :=
  repeat first
    [ apply errors_Is_refl
    | apply errors_Is_Errorf_w
    | apply errors_Is_TimeoutError
    | match goal with
      | Hx : wrapTimeoutError _ _ _ = Some ?e |- errors_Is ?e _ = true =>
          apply (errors_Is_wrapTimeoutError _ _ _ _ _ Hx)
      | Hx : (if ?b then _ else _) = Some ?e |- errors_Is ?e _ = true =>
          destruct b; inversion Hx; subst; clear Hx
      end ].

(** X19.  When [Run] returns an error after a call into the engine failed
    (the creation of the network or of the container, the test command, or
    the reading of its output) or after the write of the output to the
    standard output failed, the error of that call is reachable from the
    returned error by unwrapping: [errors.Is] finds it.  An error of the
    reading is the one returned when no write failed: a failed write ends
    the reading first. *)
Theorem Run_error_keeps_cause {World : Type} (E : Engine World) os ctx
    packagePath opts w r e w' tr :
  Run E os ctx packagePath opts (w, []) = (Returns (r, Some e), (w', tr)) ->
  (forall ctx' cause,
     In (EvNetworkNew ctx' (Returns (inr cause))) tr ->
     errors_Is e cause = true) /\
  (forall ctx' req cause,
     In (EvGenericContainer ctx' req (Returns (inr cause))) tr ->
     errors_Is e cause = true) /\
  (forall c ctx' cmd cause,
     In (EvExec c ctx' cmd (Returns (inr cause))) tr ->
     errors_Is e cause = true) /\
  (forall c ctx' cmd code rd cause,
     In (EvExec c ctx' cmd (Returns (inl (code, Some rd)))) tr ->
     r_err rd = Some cause ->
     stdout_ok tr = true ->
     errors_Is e cause = true) /\
  (forall d cause,
     In (EvStdout d (Some cause)) tr ->
     errors_Is e cause = true).
Proof.
  intros H. unfold Run in H.
  destruct (NewOptions packagePath opts) as [[o|] [e0|]] eqn:Ho;
    run_unfold H;
    try (inversion H; subst; repeat split; intros; contradiction).
  repeat run_step H.
  all: inversion H; subst; clear H.
  all: repeat split.
  all: intros;
    try match goal with
        | Hok : stdout_ok _ = true |- _ => simpl in Hok; try discriminate Hok
        end.
  all: match goal with HIn : In _ _ |- _ => split_in HIn end.
  all: match goal with
       | HIn : _ = _ :> event |- _ => inversion HIn; subst; clear HIn
       end.
  all: try match goal with
           | H1 : r_err ?rd = Some _, H2 : r_err ?rd = Some _ |- _ =>
               rewrite H1 in H2; inversion H2; subst; clear H2
           | H1 : r_err ?rd = None, H2 : r_err ?rd = Some _ |- _ =>
               rewrite H1 in H2; discriminate H2
           end.
  all: cause_reachable.
Qed.


Lemma Run_teardown_calls_once_witness :
  let run := Run (ex_engine ex_never 1 None) ex_os Background "/ctx" [] (0, []) in
  let ctx := WithTimeout Background DefaultTimeout in
  let net := mkTcNetwork 1 "net-1" in
  run = (fst run, (fst (snd run), snd (snd run))) /\
  In (EvNetworkNew ctx (Returns (inl net))) (snd (snd run)) /\
  exists r, filter is_network_remove (snd (snd run)) = [EvNetworkRemove net ctx r].
Proof.
  intros run ctx net.
  assert (Hrun : run = (fst run, (fst (snd run), snd (snd run))))
    by (vm_compute; reflexivity).
  assert (HIn : In (EvNetworkNew ctx (Returns (inl net))) (snd (snd run)))
    by (left; reflexivity).
  split; [exact Hrun|]. split; [exact HIn|].
  exact (proj1 (Run_teardown_calls_once (ex_engine ex_never 1 None) ex_os
                  Background "/ctx" [] 0 _ _ _ Hrun) ctx net HIn).
Defined.

Lemma Run_phase_order_witness :
  let run := Run (ex_engine ex_never 1 None) ex_os Background "/ctx" [] (0, []) in
  let ctx := WithTimeout Background DefaultTimeout in
  let cmd := ["go"; "test"; "-coverprofile=/tmp/coverage.txt"; "./..."] in
  let r := Returns (inl (1%Z, Some (mkReader ex_output None))) in
  run = (fst run, (fst (snd run), snd (snd run))) /\
  In (EvExec 7 ctx cmd r) (snd (snd run)) /\
  exists net req rest,
    snd (snd run) = EvNetworkNew ctx (Returns (inl net))
                    :: EvGenericContainer ctx req (Returns (inl 7))
                    :: EvExec 7 ctx cmd r :: rest.
Proof.
  intros run ctx cmd r.
  assert (Hrun : run = (fst run, (fst (snd run), snd (snd run))))
    by (vm_compute; reflexivity).
  assert (HIn : In (EvExec 7 ctx cmd r) (snd (snd run)))
    by (right; right; left; reflexivity).
  split; [exact Hrun|]. split; [exact HIn|].
  exact (proj1 (proj2 (Run_phase_order (ex_engine ex_never 1 None) ex_os
                         Background "/ctx" [] 0 _ _ _ Hrun)) 7 ctx cmd r HIn).
Defined.



Lemma Run_panics_with_engine_witness :
  let run := Run ex_engine_exec_panics ex_os Background "/ctx" [] (0, []) in
  let ctx := WithTimeout Background DefaultTimeout in
  run = (fst run, (fst (snd run), snd (snd run))) /\
  fst run = Panics "exec: connection reset" /\
  existsb event_panicked (snd (snd run)) = true /\
  (exists pre,
     snd (snd run) =
     pre ++ [EvExec 7 ctx ["go"; "test"; "-coverprofile=/tmp/coverage.txt"; "./..."]
               (Panics "exec: connection reset");
             EvTerminate 7 ctx (Returns None);
             EvNetworkRemove (mkTcNetwork 1 "net-1") ctx (Returns None)]) /\
  ((exists v, fst run = Panics v) <->
   existsb event_panicked (snd (snd run)) = true).
Proof.
  intros run ctx.
  assert (Hrun : run = (fst run, (fst (snd run), snd (snd run))))
    by (vm_compute; reflexivity).
  split; [exact Hrun|]. split; [vm_compute; reflexivity|].
  split; [vm_compute; reflexivity|].
  split; [eexists [_; _]; vm_compute; reflexivity|].
  exact (Run_panics_with_engine ex_engine_exec_panics ex_os Background
           "/ctx" [] 0 _ _ _ Hrun).
Defined.

Lemma Run_error_keeps_cause_witness :
  let E := ex_engine 1 0 None in
  let e := TimeoutError "create container"
             (Errorf_w "failed to create container: " deadlineExceededError) in
  exists w' tr req,
    Run E ex_os Background "/ctx" [WithTimeoutOpt 5%Z] (0, [])
    = (Returns (None, Some e), (w', tr)) /\
    In (EvGenericContainer (WithTimeout Background 5%Z) req
          (Returns (inr deadlineExceededError))) tr /\
    errors_Is e deadlineExceededError = true.
Proof.
  intros E e. do 3 eexists. split; [vm_compute; reflexivity|].
  split; [right; left; reflexivity|].
  eapply (proj1 (proj2 (Run_error_keeps_cause E ex_os Background "/ctx"
                          [WithTimeoutOpt 5%Z] 0 None e _ _
                          ltac:(vm_compute; reflexivity)))).
  right; left; reflexivity.
Defined.

